(** * ModuleOpt: a shallow embedding of the fleet controller

    Embeds [src/shadow_bot_creator.py] (the [ShadowBotManager] registry
    and its coarse auto-scaler) and [src/task_manager.py] (the
    [TaskManager] monitor loop, its load history, webhook alerts and task
    queue).

    Modelling conventions.
    - Python numbers that enter divisions or comparisons (stats
      counters, psutil percentages, [0.8]) are rationals [Q]; a value
      written back through [int(x * y)] is computed in binary64 as
      Python does ([py_int_mul]).
    - Calls into the container runtime, psutil and requests are external
      collaborators: their results are parameters of the embedded
      functions; their side effects are recorded as a trace of [effect]s.
    - A monitor tick is the body of the [while True] loop of
      [_monitor_container], run atomically; ticks of different monitors
      are interleaved at tick granularity. *)

From Stdlib Require Import QArith ZArith String OrdersEx Permutation SpecFloat.
From stdpp Require Import base gmap strings list pretty.

Open Scope string_scope.

(** The binary64 float nearest a rational, ties to even: Python's
    [float(n)] for an int, the value of a float literal such as [1.2],
    and the result of [int / int] (CPython rounds the exact quotient
    correctly), e.g. [sum(...) / len(...)] over integer counters. *)
Definition float_of_Q (x : Q) : spec_float :=
  match Qnum x with
  | Z0 => S754_zero false
  | Zpos n => SFdiv 53 1024 (S754_finite false n 0) (S754_finite false (Qden x) 0)
  | Zneg n => SFdiv 53 1024 (S754_finite true n 0) (S754_finite false (Qden x) 0)
  end.

(** [int(f)] on a finite float: truncation towards zero.  Python raises
    on an infinite or NaN float; no value of the model's size reaches
    one here (only magnitudes beyond 2^1023 would), and they map to 0. *)
Definition float_trunc (f : spec_float) : Z :=
  match f with
  | S754_finite s m e =>
      let a := if Z.leb 0 e then Z.shiftl (Zpos m) e else Z.shiftr (Zpos m) (- e) in
      if s then - a else a
  | _ => 0
  end.

(** [int(x * y)] with [*] the binary64 product of the floats of [x] and
    [y] (an int operand is converted to float first). *)
Definition py_int_mul (x y : Q) : Z :=
  float_trunc (SFmul 53 1024 (float_of_Q x) (float_of_Q y)).

(** Python [x > y] on numbers. *)
Definition py_gt (x y : Q) : bool := negb (Qle_bool x y).

(** Python [x < y] on numbers. *)
Definition py_lt (x y : Q) : bool := negb (Qle_bool y x).

(* ------------------------------------------------------------------ *)
(** ** [shadow_bot_creator.py]: [ShadowBotManager] *)

Module ShadowBot.

(** A docker container handle as the manager keeps it. *)
Record Container := mkContainer {
  c_image : string;
  c_name : string;
  c_mem_limit : string;
  c_cpu_quota : Z
}.

Record ShadowBotManager := mkManager {
  max_bots : Z;
  image_name : string;
  cpu_limit : Q;
  mem_limit : string;
  bots : gmap string Container
}.

(** What a call returns to its Python caller. *)
Inductive outcome (A : Type) :=
  | Returned (v : A)
  | Raised (err : string).
Arguments Returned {A} v.
Arguments Raised {A} err.

Section Manager.

(** [docker_client.containers.run(image, name=..., mem_limit=...,
    cpu_quota=..., ...)]: [None] when the runtime raises. *)
Variable docker_run : string -> string -> string -> Z -> option Container.

(** [container.remove(force=True)]: [false] when the runtime raises. *)
Variable docker_remove : Container -> bool.

Definition with_bots (m : ShadowBotManager) (b : gmap string Container)
  : ShadowBotManager :=
  mkManager (max_bots m) (image_name m) (cpu_limit m) (mem_limit m) b.

(** [f"shadow_bot_{random.randint(1000, 9999)}"] for the drawn [r]. *)
Definition random_bot_name (r : Z) : string := "shadow_bot_" +:+ pretty r.

(** [bot_name or ...]: the empty string is falsy. *)
Definition name_or (bot_name : option string) (dflt : string) : string :=
  match bot_name with
  | Some n => if String.eqb n "" then dflt else n
  | None => dflt
  end.

(** [create_shadow_bot(bot_name)]; [r] is the value [random.randint]
    draws.  The result is the new manager state and what the call
    returns ([Returned None] is the capacity refusal). *)
Definition create_shadow_bot (m : ShadowBotManager) (bot_name : option string)
    (r : Z) : ShadowBotManager * outcome (option Container) :=
  if Z.leb (max_bots m) (Z.of_nat (size (bots m))) then
    (m, Returned None)
  else
    let name := name_or bot_name (random_bot_name r) in
    match docker_run (image_name m) name (mem_limit m)
            (py_int_mul (cpu_limit m) 100000) with
    | None => (m, Raised "docker.errors.APIError")
    | Some c => (with_bots m (<[name := c]> (bots m)), Returned (Some c))
    end.

(** [stop_shadow_bot(bot_name)]. *)
Definition stop_shadow_bot (m : ShadowBotManager) (bot_name : string)
    : ShadowBotManager * outcome unit :=
  match bots m !! bot_name with
  | Some c =>
      if docker_remove c then (with_bots m (delete bot_name (bots m)), Returned tt)
      else (m, Raised "docker.errors.APIError")
  | None => (m, Returned tt)
  end.

(** [list_running_bots()]. *)
Definition list_running_bots (m : ShadowBotManager) : list string :=
  (map_to_list (bots m)).*1.

(** [random.choice(l)] for the drawn index [k]. *)
Definition random_choice (l : list string) (k : nat) : string :=
  match l with
  | [] => ""
  | _ => nth (k mod length l) l ""
  end.

(** [auto_scale_bots()] for the psutil readings [system_cpu],
    [system_mem] and the random draws [r] (bot name) and [k] (choice).
    Python parses [a or b and c] as [a or (b and c)]. *)
Definition auto_scale_bots (m : ShadowBotManager) (system_cpu system_mem : Q)
    (r : Z) (k : nat) : ShadowBotManager * outcome unit :=
  if py_gt system_cpu 80
     || (py_gt system_mem 80 && Z.ltb (Z.of_nat (size (bots m))) (max_bots m)) then
    match create_shadow_bot m None r with
    | (m', Returned _) => (m', Returned tt)
    | (m', Raised e) => (m', Raised e)
    end
  else if py_lt system_cpu 30 && py_lt system_mem 30
          && Nat.ltb 1 (size (bots m)) then
    stop_shadow_bot m (random_choice (list_running_bots m) k)
  else (m, Returned tt).

(** A call a client makes on the registry. *)
Inductive op :=
  | OpCreate (bot_name : option string) (r : Z)
  | OpStop (bot_name : string).

Definition run_op (m : ShadowBotManager) (o : op) : ShadowBotManager :=
  match o with
  | OpCreate n r => fst (create_shadow_bot m n r)
  | OpStop n => fst (stop_shadow_bot m n)
  end.

Definition run_ops (m : ShadowBotManager) (os : list op) : ShadowBotManager :=
  fold_left run_op os m.

End Manager.

End ShadowBot.

(* ------------------------------------------------------------------ *)
(** ** [task_manager.py]: the [TaskManager] monitor *)

Module TaskMgr.

(** A docker container as [_monitor_container] uses it: the tags of its
    image and its current CPU quota (HostConfig). *)
Record TContainer := mkTContainer {
  tc_image_tags : list string;
  tc_cpu_quota : Z
}.

(** [container.stats(stream=False)]: the three fields the monitor reads. *)
Record Stats := mkStats {
  total_usage : Q;   (** [stats['cpu_stats']['cpu_usage']['total_usage']] *)
  usage : Q;         (** [stats['memory_stats']['usage']] *)
  limit : Q          (** [stats['memory_stats']['limit']] *)
}.

(** One tuple of [self.load_history]:
    [(cpu_usage, mem_usage, system_cpu_usage, system_mem_usage)]. *)
Record Sample := mkSample {
  s_cpu : Q;
  s_mem : Q;
  s_sys_cpu : Q;
  s_sys_mem : Q
}.

(** The part of a [TaskManager] object the monitor reads and writes.
    [events] is the [logs] table of the SQLite database (event column). *)
Record TaskManager := mkTM {
  max_containers : Z;
  webhook_url : option string;
  containers : gmap string TContainer;
  load_history : list Sample;
  events : list string
}.

(** Observable effects other than the [TaskManager] fields. *)
Inductive effect :=
  | GaugeSet (gauge : string) (v : Q)
  | WebhookPost (url msg : string)
  | Printed (line : string)
  | UpdateMem (bot : string) (mem_limit : Z)
  | UpdateCpu (bot : string) (cpu_quota : Z)
  | Restart (bot : string)
  | ContainerRun (image name : string).

(** What [requests.post] does: it returns a response, whatever its status
    code, or raises. *)
Inductive post_result :=
  | Responded (status : Z)
  | PostRaised (err : string).

(** Normal return or a raised exception. *)
Inductive res (A : Type) :=
  | Ok (v : A)
  | Exc (err : string).
Arguments Ok {A} v.
Arguments Exc {A} err.

(** The state, trace and exception monad the methods run in. *)
Definition M (A : Type) : Type :=
  TaskManager -> TaskManager * list effect * res A.

Global Instance M_ret : MRet M := fun A a s => (s, [], Ok a).

Global Instance M_bind : MBind M := fun A B k m s =>
  match m s with
  | (s1, t1, Ok a) => let '(s2, t2, r) := k a s1 in (s2, app t1 t2, r)
  | (s1, t1, Exc e) => (s1, t1, Exc e)
  end.

Definition get_st : M TaskManager := fun s => (s, [], Ok s).
Definition modify (f : TaskManager -> TaskManager) : M unit :=
  fun s => (f s, [], Ok tt).
Definition emit (e : effect) : M unit := fun s => (s, [e], Ok tt).
Definition raise {A} (e : string) : M A := fun s => (s, [], Exc e).

(** [try: body except Exception as e: handler(e)]. *)
Definition try_except {A} (body : M A) (handler : string -> M A) : M A :=
  fun s =>
    match body s with
    | (s1, t1, Exc e) => let '(s2, t2, r) := handler e s1 in (s2, app t1 t2, r)
    | x => x
    end.

Definition with_history (s : TaskManager) (h : list Sample) : TaskManager :=
  mkTM (max_containers s) (webhook_url s) (containers s) h (events s).
Definition with_events (s : TaskManager) (ev : list string) : TaskManager :=
  mkTM (max_containers s) (webhook_url s) (containers s) (load_history s) ev.
Definition with_containers (s : TaskManager) (c : gmap string TContainer)
  : TaskManager :=
  mkTM (max_containers s) (webhook_url s) c (load_history s) (events s).

(** The answers of the collaborators during one tick: what
    [requests.post(url, json=...)] does, and the name and CPU quota a
    container started by [_scale_up] gets. *)
Record Env := mkEnv {
  env_post : string -> string -> post_result;
  env_new_name : string;
  env_new_quota : Z
}.

(** [requests.post(url, json={"text": message})]. *)
Definition requests_post (env : Env) (url message : string) : M unit :=
  match env_post env url message with
  | Responded _ => emit (WebhookPost url message)
  | PostRaised e => emit (WebhookPost url message) ;; raise e
  end.

(** [_send_webhook_alert(message)]; [if self.webhook_url:] treats the
    empty string as unset. *)
Definition send_webhook_alert (env : Env) (message : string) : M unit :=
  s ← get_st;
  match webhook_url s with
  | Some u =>
      if String.eqb u "" then mret tt
      else try_except (requests_post env u message)
             (fun e => emit (Printed ("Błąd podczas wysyłania webhooka: " +:+ e)))
  | None => mret tt
  end.

(** [_log_event(event)]: one row appended to the [logs] table. *)
Definition log_event (event : string) : M unit :=
  modify (fun s => with_events s (app (events s) [event])).

(** Modelled from the spec: [TaskManager._scale_up(image)], which
    [_monitor_container] calls but which is not in src/.  Following the
    spec (4.3, 4.5, 7): a scale-out creates one container of [image]
    "only if current count < max; otherwise suppressed, no error"; the
    refusal ([CapacityExceeded]) and a duplicate name ([NameConflict]) are
    logged, not thrown to the monitor loop.  The new container gets the
    name and quota of [env]. *)
Definition scale_up (env : Env) (image : string) : M unit :=
  s ← get_st;
  if Z.ltb (Z.of_nat (size (containers s))) (max_containers s) then
    match containers s !! env_new_name env with
    | Some _ => emit (Printed "NameConflict")
    | None =>
        modify (fun s => with_containers s
                  (<[env_new_name env := mkTContainer [image] (env_new_quota env)]>
                     (containers s))) ;;
        emit (ContainerRun image (env_new_name env))
    end
  else emit (Printed "CapacityExceeded").

(** Python [x / y] on numbers: [ZeroDivisionError] when [y] is zero. *)
Definition py_div (x y : Q) : M Q :=
  if Qeq_bool y 0 then raise "ZeroDivisionError" else mret (x / y)%Q.

(** [container.image.tags[0]]. *)
Definition first_tag (c : TContainer) : M string :=
  match tc_image_tags c with
  | t :: _ => mret t
  | [] => raise "IndexError"
  end.

(** [sum(x[i] for x in self.load_history)]. *)
Definition sum_field (f : Sample -> Q) (h : list Sample) : Q :=
  fold_left (fun acc x => acc + f x)%Q h 0%Q.

(** [sum(...) / len(self.load_history)]; the list is never empty here,
    since a sample was appended just before. *)
Definition mean (f : Sample -> Q) (h : list Sample) : Q :=
  (sum_field f h / inject_Z (Z.of_nat (length h)))%Q.

(** Lines 75-77: [append], then [pop(0)] when longer than 10. *)
Definition push_history (h : list Sample) (x : Sample) : list Sample :=
  let h1 := app h [x] in
  if Nat.ltb 10 (length h1) then tail h1 else h1.

(** Lines 90-112 of [_monitor_container]: the four independent checks on
    the averages and the memory limit read in this tick.  Python's [or]
    evaluates [avg_mem / mem_limit] first on lines 90 and 102, and only
    when [avg_cpu <= 60000] on line 108. *)
Definition act (env : Env) (bot_name : string) (container : TContainer)
    (mem_limit avg_cpu avg_mem avg_system_cpu avg_system_mem : Q) : M unit :=
  ratio1 ← py_div avg_mem mem_limit;
  (if py_gt ratio1 (8#10) || py_gt avg_system_mem 85 then
     let message := "Zwiększanie zasobów RAM dla kontenera " +:+ bot_name +:+ "." in
     send_webhook_alert env message ;;
     log_event message ;;
     emit (UpdateMem bot_name (py_int_mul mem_limit (12#10)))
   else mret tt) ;;
  (if py_gt avg_cpu 50000 || py_gt avg_system_cpu 85 then
     let message := "Zwiększanie zasobów CPU dla kontenera " +:+ bot_name +:+ "." in
     send_webhook_alert env message ;;
     log_event message ;;
     emit (UpdateCpu bot_name (py_int_mul avg_cpu (12#10)))
   else mret tt) ;;
  ratio3 ← py_div avg_mem mem_limit;
  (if py_gt ratio3 (9#10) || py_gt avg_cpu 70000 then
     let message := "Restartowanie kontenera " +:+ bot_name
                    +:+ " z powodu wysokiego zużycia zasobów." in
     send_webhook_alert env message ;;
     log_event message ;;
     emit (Restart bot_name)
   else mret tt) ;;
  scale ← (if py_gt avg_cpu 60000 then mret true
           else ratio4 ← py_div avg_mem mem_limit; mret (py_gt ratio4 (85#100))
           : M bool);
  if (scale : bool) then
    let message := "Skalowanie systemu: dodawanie nowego kontenera." in
    send_webhook_alert env message ;;
    log_event message ;;
    tag ← first_tag container;
    scale_up env tag
  else mret tt.

(** One reading of the collaborators: [container.stats(stream=False)],
    [psutil.cpu_percent()] and [psutil.virtual_memory().percent]. *)
Record Reading := mkReading {
  rd_stats : Stats;
  rd_system_cpu : Q;
  rd_system_mem : Q
}.

(** The tuple line 75 appends for a reading. *)
Definition sample_of (rd : Reading) : Sample :=
  mkSample (total_usage (rd_stats rd)) (usage (rd_stats rd))
    (rd_system_cpu rd) (rd_system_mem rd).

(** One iteration of the [while True] loop of [_monitor_container]
    (lines 68-112; [time.sleep(5)] has no modelled effect). *)
Definition monitor_tick (env : Env) (bot_name : string) (container : TContainer)
    (rd : Reading) : M unit :=
  let cpu_usage := total_usage (rd_stats rd) in
  let mem_usage := usage (rd_stats rd) in
  let mem_limit := limit (rd_stats rd) in
  let system_cpu_usage := rd_system_cpu rd in
  let system_mem_usage := rd_system_mem rd in
  modify (fun s => with_history s (push_history (load_history s)
            (mkSample cpu_usage mem_usage system_cpu_usage system_mem_usage))) ;;
  s ← get_st;
  let avg_cpu := mean s_cpu (load_history s) in
  let avg_mem := mean s_mem (load_history s) in
  let avg_system_cpu := mean s_sys_cpu (load_history s) in
  let avg_system_mem := mean s_sys_mem (load_history s) in
  emit (GaugeSet "bot_cpu_usage" avg_cpu) ;;
  emit (GaugeSet "bot_mem_usage" avg_mem) ;;
  emit (GaugeSet "system_cpu_usage" avg_system_cpu) ;;
  emit (GaugeSet "system_mem_usage" avg_system_mem) ;;
  act env bot_name container mem_limit avg_cpu avg_mem avg_system_cpu avg_system_mem.

(** Lines 63-65: the container the monitor of [bot_name] captures, or
    [None] when the monitor returns at once. *)
Definition monitor_start (s : TaskManager) (bot_name : string) : option TContainer :=
  containers s !! bot_name.

(** The [while True] loop of [_monitor_container] over the readings of
    its successive iterations: an exception leaves the loop, and the
    thread, at once. *)
Fixpoint monitor_loop (env : Env) (bot_name : string) (container : TContainer)
    (rds : list Reading) : M unit :=
  match rds with
  | [] => mret tt
  | rd :: rest =>
      monitor_tick env bot_name container rd ;;
      monitor_loop env bot_name container rest
  end.

(** [_monitor_container(bot_name)] (lines 63-67): look the container up
    once, return when it is missing, then loop. *)
Definition monitor_container (env : Env) (bot_name : string) (rds : list Reading)
    : M unit :=
  s ← get_st;
  match containers s !! bot_name with
  | None => mret tt
  | Some container => monitor_loop env bot_name container rds
  end.

(** One tick of some monitor, with everything it reads. *)
Record TickIn := mkTickIn {
  ti_env : Env;
  ti_bot : string;
  ti_container : TContainer;
  ti_reading : Reading
}.

(** Ticks of the running monitors, interleaved at tick granularity.  A
    tick that raises ends its own thread; the object it mutated stays. *)
Definition run_ticks (s : TaskManager) (ts : list TickIn) : TaskManager :=
  fold_left (fun s t =>
    fst (fst (monitor_tick (ti_env t) (ti_bot t) (ti_container t) (ti_reading t) s)))
    ts s.

End TaskMgr.

(* ------------------------------------------------------------------ *)
(** ** [task_manager.py]: the task queue *)

Module TaskQueue.

(** Modelled from the spec: the entries put on [self.task_queue] (the
    producer is not in src/).  Spec 3 gives a Task a priority (the
    ordering key, lower first), a payload and an enqueue timestamp used as
    the tie-break; the entry is the tuple
    [(priority, enqueued_at, payload)], and [enqueued_at] grows with every
    put. *)
Record Task := mkTask {
  priority : Z;
  enqueued_at : Z;
  payload : string
}.

(** Python's [<] on the entry tuples: lexicographic. *)
Definition task_lt (a b : Task) : bool :=
  Z.ltb (priority a) (priority b)
  || (Z.eqb (priority a) (priority b)
      && (Z.ltb (enqueued_at a) (enqueued_at b)
          || (Z.eqb (enqueued_at a) (enqueued_at b)
              && match String_as_OT.compare (payload a) (payload b) with
                 | Lt => true
                 | _ => false
                 end))).

(** The order [task_lt] decides, as a relation. *)
Definition tlt (a b : Task) : Prop :=
  (priority a < priority b
   \/ (priority a = priority b
       /\ (enqueued_at a < enqueued_at b
           \/ (enqueued_at a = enqueued_at b
               /\ String_as_OT.lt (payload a) (payload b)))))%Z.

Definition task_eqb (a b : Task) : bool :=
  Z.eqb (priority a) (priority b) && Z.eqb (enqueued_at a) (enqueued_at b)
  && String.eqb (payload a) (payload b).

(** [min(entries)]: the first entry no later one is below. *)
Definition pq_min (x : Task) (l : list Task) : Task :=
  fold_left (fun m y => if task_lt y m then y else m) l x.

Fixpoint remove_first (x : Task) (l : list Task) : list Task :=
  match l with
  | [] => []
  | y :: r => if task_eqb x y then r else y :: remove_first x r
  end.

(** [queue.PriorityQueue().get()]: removes and returns the lowest valued
    entry, the one [min(entries)] returns (the library's contract);
    [None] where [get] blocks on an empty queue. *)
Definition pq_get (q : list Task) : option (Task * list Task) :=
  match q with
  | [] => None
  | x :: r => let m := pq_min x r in Some (m, remove_first m q)
  end.

(** The queue with the producer's clock. *)
Record TQ := mkTQ {
  entries : list Task;
  clock : Z
}.

(** [task_queue.put((priority, enqueued_at, payload))]. *)
Definition push (t : TQ) (p : Z) (pl : string) : TQ :=
  mkTQ (app (entries t) [mkTask p (clock t) pl]) (clock t + 1).

(** [task_queue.get()]. *)
Definition pop (t : TQ) : option (Task * TQ) :=
  match pq_get (entries t) with
  | None => None
  | Some (x, r) => Some (x, mkTQ r (clock t))
  end.

Inductive qop :=
  | QPush (p : Z) (pl : string)
  | QPop.

(** A run of puts and gets from the empty queue; a get on an empty
    queue is not issued (it would block). *)
Definition run_qop (t : TQ) (o : qop) : TQ :=
  match o with
  | QPush p pl => push t p pl
  | QPop => match pop t with Some (_, t') => t' | None => t end
  end.

Definition run_qops (os : list qop) : TQ := fold_left run_qop os (mkTQ [] 0).

(** What the producer's clock guarantees: the stamps of the entries are
    distinct and below the clock. *)
Definition tq_inv (t : TQ) : Prop :=
  List.NoDup (map enqueued_at (entries t))
  /\ List.Forall (fun y => enqueued_at y < clock t)%Z (entries t).

(** Pop until empty: the priorities in the order [get] returns them. *)
Fixpoint drain (fuel : nat) (t : TQ) : list Task :=
  match fuel with
  | O => []
  | S f => match pop t with
           | Some (x, t') => x :: drain f t'
           | None => []
           end
  end.

End TaskQueue.

(* ------------------------------------------------------------------ *)
(** ** Observations used to state the properties *)

Module Observe.
Import TaskMgr.

(** The state after a run, its trace and its result. *)
Definition st_of {A} (m : M A) (s : TaskManager) : TaskManager := fst (fst (m s)).
Definition tr_of {A} (m : M A) (s : TaskManager) : list effect := snd (fst (m s)).
Definition res_of {A} (m : M A) (s : TaskManager) : res A := snd (m s).

(** [m] relates the state before and after by [R]. *)
Definition stays {A} (R : relation TaskManager) (m : M A) : Prop :=
  forall s, R s (st_of m s).

(** Every effect [m] records satisfies [P]. *)
Definition trace_ok {A} (P : effect -> Prop) (m : M A) : Prop :=
  forall s, Forall P (tr_of m s).

(** Two runs that end in the same state with the same result. *)
Definition agree {A} (m1 m2 : M A) : Prop :=
  forall s, st_of m1 s = st_of m2 s /\ res_of m1 s = res_of m2 s.

(** The last [n] elements of [l]. *)
Definition lastn {A} (n : nat) (l : list A) : list A := drop (length l - n) l.

(** The relation "same [load_history]" between two states. *)
Definition same_history (s s' : TaskManager) : Prop :=
  load_history s' = load_history s.

(** The relation "same [events]". *)
Definition same_events (s s' : TaskManager) : Prop := events s' = events s.

(** The registry only grows by containers started below
    [max_containers]. *)
Definition grows_below_max (s s' : TaskManager) : Prop :=
  max_containers s' = max_containers s /\
  containers s ⊆ containers s' /\
  (forall n, is_Some (containers s' !! n) -> containers s !! n = None ->
     Z.of_nat (size (containers s)) < max_containers s)%Z.

(** The actions of spec 4.5 a trace performs on the runtime. *)
Inductive action := GrowMemory | GrowCpu | RestartContainer | ScaleOut.

Definition action_of (e : effect) : option action :=
  match e with
  | UpdateMem _ _ => Some GrowMemory
  | UpdateCpu _ _ => Some GrowCpu
  | Restart _ => Some RestartContainer
  | ContainerRun _ _ => Some ScaleOut
  | _ => None
  end.

Definition actions_of (t : list effect) : list action := omap action_of t.

(** The values of the gauges a trace sets. *)
Definition gauges_of (t : list effect) : list (string * Q) :=
  omap (fun e => match e with GaugeSet g v => Some (g, v) | _ => None end) t.

(** Spec 4.5 in its own words: the alert (and event) messages of the
    checks that fire on a snapshot, in the fixed order, for the memory
    ratio [ratio]. *)
Definition spec_policy_messages (bot_name : string)
    (ratio avg_cpu avg_sys_cpu avg_sys_mem : Q) : list string :=
  app (if py_gt ratio (8#10) || py_gt avg_sys_mem 85
       then ["Zwiększanie zasobów RAM dla kontenera " +:+ bot_name +:+ "."] else [])
  (app (if py_gt avg_cpu 50000 || py_gt avg_sys_cpu 85
        then ["Zwiększanie zasobów CPU dla kontenera " +:+ bot_name +:+ "."] else [])
  (app (if py_gt ratio (9#10) || py_gt avg_cpu 70000
        then ["Restartowanie kontenera " +:+ bot_name
              +:+ " z powodu wysokiego zużycia zasobów."] else [])
       (if py_gt avg_cpu 60000 || py_gt ratio (85#100)
        then ["Skalowanie systemu: dodawanie nowego kontenera."] else []))).

(** Spec 4.4-4.5 in its own words: the memory ratio as the smoothed
    memory usage over the smoothed memory limit, both averaged over the
    readings of the retained window (the last 10). *)
Definition spec_smoothed_ratio (rds : list Reading) : Q :=
  let w := lastn 10 rds in
  let n := inject_Z (Z.of_nat (length w)) in
  ((fold_left (fun a r => a + usage (rd_stats r)) w 0 / n)
   / (fold_left (fun a r => a + limit (rd_stats r)) w 0 / n))%Q.

(** The messages a trace posts to the webhook. *)
Definition posts_of (t : list effect) : list string :=
  omap (fun e => match e with WebhookPost _ m => Some m | _ => None end) t.

(** [if self.webhook_url:] *)
Definition configured (u : option string) : bool :=
  match u with
  | Some v => negb (String.eqb v "")
  | None => false
  end.

(** [m] keeps the webhook URL, only appends to the event log, and posts
    exactly the events it appends when a URL is configured (nothing
    otherwise). *)
Definition logs_posts {A} (m : M A) : Prop :=
  forall s, webhook_url (st_of m s) = webhook_url s /\
    exists l, events (st_of m s) = app (events s) l /\
      posts_of (tr_of m s) = if configured (webhook_url s) then l else [].

(** The arithmetic mean of a field over a list of samples, with no
    weighting (spec 3: "averages are computed only over samples currently
    retained"). *)
Definition arith_mean (f : Sample -> Q) (h : list Sample) : Q :=
  (foldr Qplus 0 (map f h) / inject_Z (Z.of_nat (length h)))%Q.

(** The four gauge updates of a tick whose history is [h]. *)
Definition gauge_effects (h : list Sample) : list effect :=
  [GaugeSet "bot_cpu_usage" (mean s_cpu h);
   GaugeSet "bot_mem_usage" (mean s_mem h);
   GaugeSet "system_cpu_usage" (mean s_sys_cpu h);
   GaugeSet "system_mem_usage" (mean s_sys_mem h)].

(** The value of the first gauge a trace sets. *)
Definition first_gauge (t : list effect) : option Q :=
  match gauges_of t with
  | (_, v) :: _ => Some v
  | [] => None
  end.

(** What a resize writes: the memory limit [int(lim * 1.2)] and the CPU
    quota [int(avg_cpu * 1.2)], both products in binary64. *)
Definition resize_ok (lim avg_cpu : Q) (e : effect) : Prop :=
  match e with
  | UpdateMem _ v => v = py_int_mul lim (12#10)
  | UpdateCpu _ v => v = py_int_mul avg_cpu (12#10)
  | _ => True
  end.

End Observe.

(* ------------------------------------------------------------------ *)
(** ** Concrete inputs for runs *)

Module BotFixtures.
Import ShadowBot.

(** Runtime stubs for concrete runs: [run] always starts the container,
    [remove] always succeeds. *)
Definition stub_run (img name mem : string) (q : Z) : option Container :=
  Some (mkContainer img name mem q).
Definition stub_remove (_ : Container) : bool := true.
Definition manager0 : ShadowBotManager :=
  mkManager 2 "shadow_bot_image" (1#2) "256m" ∅.

(** A registry at its maximum of one bot. *)
Definition manager_full : ShadowBotManager :=
  mkManager 1 "shadow_bot_image" (1#2) "256m"
    {[ "shadow_bot_1" := mkContainer "shadow_bot_image" "shadow_bot_1" "256m" 50000 ]}.

End BotFixtures.

Module Fixtures.
Import TaskMgr.

(** A webhook endpoint that answers [200]. *)
Definition ok_post (_ _ : string) : post_result := Responded 200.
Definition env0 : Env := mkEnv ok_post "shadow_bot_9" 50000.

(** A fresh [TaskManager]: [max_containers=3], no webhook, nothing
    logged. *)
Definition tm0 : TaskManager := mkTM 3 None ∅ [] [].

Definition bot_a : TContainer := mkTContainer ["shadow_bot_image:latest"] 50000.

Definition tm2 : TaskManager :=
  mkTM 3 None (<["shadow_bot_1" := bot_a]> (<["shadow_bot_2" := bot_a]> ∅)) [] [].

Definition reading (cpu mem lim sys_cpu sys_mem : Q) : Reading :=
  mkReading (mkStats cpu mem lim) sys_cpu sys_mem.

(** A manager whose one container slot is taken. *)
Definition tm_full : TaskManager :=
  mkTM 1 None {[ "shadow_bot_1" := bot_a ]} [] [].

(** A manager with a webhook endpoint, and endpoints that fail: one
    answers [500], the other raises. *)
Definition hook_url : string := "http://hooks.example/alert".
Definition tm_hook : TaskManager := mkTM 3 (Some hook_url) ∅ [] [].
Definition status500_post (_ _ : string) : post_result := Responded 500.
Definition raising_post (_ _ : string) : post_result := PostRaised "ConnectionError".

(** Twelve quiet ticks of one monitor; the [i]-th reads CPU counter [i]. *)
Definition quiet_ticks : list TickIn :=
  map (fun i => mkTickIn env0 "shadow_bot_1" bot_a (reading (inject_Z i) 1 1000 1 1))
    [1; 2; 3; 4; 5; 6; 7; 8; 9; 10; 11; 12]%Z.

End Fixtures.

(* ================================================================== *)
(** * Properties *)

Module ShadowBotFacts.
Import ShadowBot BotFixtures.
Local Open Scope Z_scope.

Section Runtime.

Variable docker_run : string -> string -> string -> Z -> option Container.
Variable docker_remove : Container -> bool.

Lemma with_bots_max m b : max_bots (with_bots m b) = max_bots m.
Proof. reflexivity. Qed.

Lemma create_at_capacity m n r :
  max_bots m <= Z.of_nat (size (bots m)) ->
  create_shadow_bot docker_run m n r = (m, Returned None).
Proof.
  intros H. unfold create_shadow_bot.
  destruct (Z.leb_spec (max_bots m) (Z.of_nat (size (bots m)))); [reflexivity | lia].
Qed.

(** A create keeps [max_bots] and adds at most one key, only below it. *)
Lemma create_bound m n r :
  let m' := fst (create_shadow_bot docker_run m n r) in
  max_bots m' = max_bots m /\
  (forall k, is_Some (bots m' !! k) -> bots m !! k = None ->
     Z.of_nat (size (bots m)) < max_bots m) /\
  (Z.of_nat (size (bots m')) <= Z.max (max_bots m) (Z.of_nat (size (bots m)))).
Proof.
  unfold create_shadow_bot.
  destruct (Z.leb_spec (max_bots m) (Z.of_nat (size (bots m)))) as [Hle|Hlt].
  - cbn. split; [reflexivity|]. split.
    + intros k [v Hv] Hn. congruence.
    + lia.
  - destruct (docker_run _ _ _ _) as [c|]; cbn.
    + split; [reflexivity|]. split; [intros; lia|].
      rewrite map_size_insert.
      destruct (bots m !! _); cbn; lia.
    + split; [reflexivity|]. split; [intros k [v Hv] Hn; congruence | lia].
Qed.

Lemma stop_bound m n :
  let m' := fst (stop_shadow_bot docker_remove m n) in
  max_bots m' = max_bots m /\
  (forall k, is_Some (bots m' !! k) -> is_Some (bots m !! k)) /\
  (size (bots m') <= size (bots m))%nat.
Proof.
  unfold stop_shadow_bot.
  destruct (bots m !! n) as [c|] eqn:Hc; cbn; [|split; [reflexivity|]; split; [auto|lia]].
  destruct (docker_remove c); cbn; [|split; [reflexivity|]; split; [auto|lia]].
  split; [reflexivity|]. split.
  - intros k. rewrite lookup_delete. case_decide; [intros [? Hx]; discriminate | auto].
  - rewrite map_size_delete, Hc. lia.
Qed.

Lemma run_op_bound m o :
  Z.of_nat (size (bots m)) <= max_bots m ->
  max_bots (run_op docker_run docker_remove m o) = max_bots m /\
  Z.of_nat (size (bots (run_op docker_run docker_remove m o))) <= max_bots m.
Proof.
  intros H. destruct o as [n r|n]; cbn.
  - destruct (create_bound m n r) as (H1 & _ & H3). split; [exact H1|]. lia.
  - destruct (stop_bound m n) as (H1 & _ & H3). split; [exact H1|]. lia.
Qed.

Lemma run_ops_bound os m :
  Z.of_nat (size (bots m)) <= max_bots m ->
  max_bots (run_ops docker_run docker_remove m os) = max_bots m /\
  Z.of_nat (size (bots (run_ops docker_run docker_remove m os))) <= max_bots m.
Proof.
  unfold run_ops. revert m. induction os as [|o os IH]; intros m H; cbn; [lia|].
  destruct (run_op_bound m o H) as [E B].
  rewrite <- E. apply IH. rewrite E. exact B.
Qed.

(** The coarse scaler creates a bot only below [max_bots]; at
    [max_bots], its scale-out branch returns normally and changes
    nothing. *)
Lemma auto_scale_bound m cpu mem r k :
  let p := auto_scale_bots docker_run docker_remove m cpu mem r k in
  (forall n, is_Some (bots (fst p) !! n) -> bots m !! n = None ->
     Z.of_nat (size (bots m)) < max_bots m) /\
  (max_bots m <= Z.of_nat (size (bots m)) ->
   py_gt cpu 80
   || (py_gt mem 80 && Z.ltb (Z.of_nat (size (bots m))) (max_bots m)) = true ->
   p = (m, Returned tt)).
Proof.
  unfold auto_scale_bots.
  destruct (py_gt cpu 80 || _) eqn:Hup.
  - destruct (create_bound m None r) as (_ & Hnew & _).
    destruct (create_shadow_bot docker_run m None r) as [m' [v|e]] eqn:Hc;
      cbn in Hnew |- *; (split; [exact Hnew|]);
      intros Hfull _; rewrite create_at_capacity in Hc by exact Hfull;
      congruence.
  - split; [|intros _ Hf; discriminate].
    destruct (_ && _ && _).
    + destruct (stop_bound m (random_choice (list_running_bots m) k))
        as (_ & Hsub & _).
      intros n Hn Hm. destruct (Hsub n Hn) as [x Hx]. congruence.
    + intros n [x Hx] Hm. cbn in Hx. congruence.
Qed.

End Runtime.

(** C1: for every sequence of [create_shadow_bot] and [stop_shadow_bot]
    calls from a registry within capacity, the registry never holds more
    than [max_bots] entries; a create attempted when it already holds
    [max_bots] entries is refused (it returns [None], the capacity
    failure) and leaves the registry unchanged. *)
Theorem registry_never_exceeds_max_bots docker_run docker_remove m os :
  Z.of_nat (size (bots m)) <= max_bots m ->
  let m' := run_ops docker_run docker_remove m os in
  Z.of_nat (size (bots m')) <= max_bots m' /\
  (forall n r, max_bots m' <= Z.of_nat (size (bots m')) ->
     create_shadow_bot docker_run m' n r = (m', Returned None)).
Proof.
  intros H m'.
  destruct (run_ops_bound docker_run docker_remove os m H) as [E B].
  split.
  - subst m'. rewrite E. exact B.
  - intros n r Hc. apply create_at_capacity. exact Hc.
Qed.

Lemma registry_never_exceeds_max_bots_witness :
  Z.of_nat (size (bots manager0)) <= max_bots manager0 /\
  let m' := run_ops stub_run stub_remove manager0
              [OpCreate None 1234; OpCreate (Some "b") 0; OpStop "b";
               OpCreate (Some "c") 0; OpCreate (Some "d") 0] in
  Z.of_nat (size (bots m')) <= max_bots m' /\
  (forall n r, max_bots m' <= Z.of_nat (size (bots m')) ->
     create_shadow_bot stub_run m' n r = (m', Returned None)).
Proof.
  split; [vm_compute; discriminate|].
  apply (registry_never_exceeds_max_bots stub_run stub_remove manager0).
  vm_compute. discriminate.
Defined.

Example registry_run_full :
  size (bots (run_ops stub_run stub_remove manager0
    [OpCreate None 1234; OpCreate (Some "b") 0; OpCreate (Some "c") 0])) = 2%nat.
Proof. vm_compute. reflexivity. Qed.

End ShadowBotFacts.

Module TaskMgrFacts.
Import TaskMgr Observe.
Local Open Scope Z_scope.

Lemma run_bind {A B} (m : M A) (k : A -> M B) s :
  (m ≫= k) s =
  match m s with
  | (s1, t1, Ok a) => let '(s2, t2, r) := k a s1 in (s2, app t1 t2, r)
  | (s1, t1, Exc e) => (s1, t1, Exc e)
  end.
Proof. reflexivity. Qed.

(** ** Relations between the state before and after a run *)

Section Stays.
Context (R : relation TaskManager) `{!PreOrder R}.

Lemma stays_bind {A B} (m : M A) (k : A -> M B) :
  stays R m -> (forall a, stays R (k a)) -> stays R (m ≫= k).
Proof.
  intros Hm Hk s. unfold st_of. rewrite run_bind.
  specialize (Hm s). unfold st_of in Hm.
  destruct (m s) as [[s1 t1] [a|e]]; cbn in *; [|exact Hm].
  specialize (Hk a s1). unfold st_of in Hk.
  destruct (k a s1) as [[s2 t2] r]; cbn in *. etransitivity; eauto.
Qed.

Lemma stays_ret {A} (a : A) : stays R (mret a).
Proof. intros s. cbn. reflexivity. Qed.
Lemma stays_get : stays R get_st.
Proof. intros s. cbn. reflexivity. Qed.
Lemma stays_emit e : stays R (emit e).
Proof. intros s. cbn. reflexivity. Qed.
Lemma stays_raise {A} e : stays R (raise (A:=A) e).
Proof. intros s. cbn. reflexivity. Qed.
Lemma stays_modify f : (forall s, R s (f s)) -> stays R (modify f).
Proof. intros H s. apply H. Qed.

Lemma stays_try {A} (b : M A) h :
  stays R b -> (forall e, stays R (h e)) -> stays R (try_except b h).
Proof.
  intros Hb Hh s. unfold st_of, try_except.
  specialize (Hb s). unfold st_of in Hb.
  destruct (b s) as [[s1 t1] [a|e]]; cbn in *; [exact Hb|].
  specialize (Hh e s1). unfold st_of in Hh.
  destruct (h e s1) as [[s2 t2] r]; cbn in *. etransitivity; eauto.
Qed.

End Stays.

(** Decompose a run into its primitive steps. *)
Ltac stays_step :=
  match goal with
  | |- stays ?R (_ ≫= _) => apply (stays_bind R); [|intros ?]
  | |- stays ?R (mret _) => apply (stays_ret R)
  | |- stays ?R get_st => apply (stays_get R)
  | |- stays ?R (emit _) => apply (stays_emit R)
  | |- stays ?R (raise _) => apply (stays_raise R)
  | |- stays ?R (modify _) => apply (stays_modify R); intros; reflexivity
  | |- stays ?R (try_except _ _) => apply (stays_try R); [|intros ?]
  | |- stays _ (let _ := _ in _) => cbv zeta
  | |- stays _ (if ?b then _ else _) => destruct b
  | |- stays _ (match ?x with _ => _ end) => destruct x
  end.

(** ** Properties of every effect in the trace *)

Section Trace.
Context (P : effect -> Prop).

Lemma trace_bind {A B} (m : M A) (k : A -> M B) :
  trace_ok P m -> (forall a, trace_ok P (k a)) -> trace_ok P (m ≫= k).
Proof.
  intros Hm Hk s. unfold tr_of. rewrite run_bind.
  specialize (Hm s). unfold tr_of in Hm.
  destruct (m s) as [[s1 t1] [a|e]]; cbn in *; [|exact Hm].
  specialize (Hk a s1). unfold tr_of in Hk.
  destruct (k a s1) as [[s2 t2] r]; cbn in *. apply Forall_app; auto.
Qed.

Lemma trace_ret {A} (a : A) : trace_ok P (mret a).
Proof. intros s. constructor. Qed.
Lemma trace_get : trace_ok P get_st.
Proof. intros s. constructor. Qed.
Lemma trace_emit e : P e -> trace_ok P (emit e).
Proof. intros H s. repeat constructor. exact H. Qed.
Lemma trace_raise {A} e : trace_ok P (raise (A:=A) e).
Proof. intros s. constructor. Qed.
Lemma trace_modify f : trace_ok P (modify f).
Proof. intros s. constructor. Qed.

Lemma trace_try {A} (b : M A) h :
  trace_ok P b -> (forall e, trace_ok P (h e)) -> trace_ok P (try_except b h).
Proof.
  intros Hb Hh s. unfold tr_of, try_except.
  specialize (Hb s). unfold tr_of in Hb.
  destruct (b s) as [[s1 t1] [a|e]]; cbn in *; [exact Hb|].
  specialize (Hh e s1). unfold tr_of in Hh.
  destruct (h e s1) as [[s2 t2] r]; cbn in *. apply Forall_app; auto.
Qed.

End Trace.

Ltac trace_step :=
  match goal with
  | |- trace_ok _ (_ ≫= _) => apply trace_bind; [|intros ?]
  | |- trace_ok _ (mret _) => apply trace_ret
  | |- trace_ok _ get_st => apply trace_get
  | |- trace_ok _ (emit _) => apply trace_emit
  | |- trace_ok _ (raise _) => apply trace_raise
  | |- trace_ok _ (modify _) => apply trace_modify
  | |- trace_ok _ (try_except _ _) => apply trace_try; [|intros ?]
  | |- trace_ok _ (let _ := _ in _) => cbv zeta
  | |- trace_ok _ (if ?b then _ else _) => destruct b
  | |- trace_ok _ (match ?x with _ => _ end) => destruct x
  end.

(** ** Two runs that end in the same state with the same result *)

Lemma agree_refl {A} (m : M A) : agree m m.
Proof. intros s. split; reflexivity. Qed.

Lemma agree_bind {A B} (m1 m2 : M A) (k1 k2 : A -> M B) :
  agree m1 m2 -> (forall a, agree (k1 a) (k2 a)) -> agree (m1 ≫= k1) (m2 ≫= k2).
Proof.
  intros Hm Hk s. unfold st_of, res_of. rewrite !run_bind.
  destruct (Hm s) as [Hs Hr]. unfold st_of, res_of in Hs, Hr.
  destruct (m1 s) as [[s1 t1] r1], (m2 s) as [[s2 t2] r2]; cbn in Hs, Hr; subst.
  destruct r2 as [a|e]; [|split; reflexivity].
  destruct (Hk a s2) as [Hs' Hr']. unfold st_of, res_of in Hs', Hr'.
  destruct (k1 a s2) as [[u1 v1] w1], (k2 a s2) as [[u2 v2] w2].
  cbn in *. subst. split; reflexivity.
Qed.

(** ** Running the monitor symbolically *)

Lemma qeq_bool_false (q : Q) : ~ (q == 0)%Q -> Qeq_bool q 0 = false.
Proof.
  intros H. destruct (Qeq_bool q 0) eqn:E; [|reflexivity].
  apply Qeq_bool_eq in E. contradiction.
Qed.

(** An alert leaves the object as it is and returns normally. *)
Lemma send_run env m s :
  exists t, send_webhook_alert env m s = (s, t, Ok tt) /\ actions_of t = [].
Proof.
  unfold send_webhook_alert, requests_post, try_except.
  cbv [mbind M_bind get_st emit raise mret M_ret].
  destruct (webhook_url s) as [u|]; [|eexists; split; reflexivity].
  destruct (String.eqb u ""); [eexists; split; reflexivity|].
  destruct (env_post env u m); cbn; eexists; split; reflexivity.
Qed.

Lemma scale_up_run env img s :
  scale_up env img s =
  if Z.ltb (Z.of_nat (size (containers s))) (max_containers s) then
    match containers s !! env_new_name env with
    | Some _ => (s, [Printed "NameConflict"], Ok tt)
    | None => (with_containers s (<[env_new_name env :=
                  mkTContainer [img] (env_new_quota env)]> (containers s)),
               [ContainerRun img (env_new_name env)], Ok tt)
    end
  else (s, [Printed "CapacityExceeded"], Ok tt).
Proof.
  unfold scale_up. cbv [mbind M_bind get_st emit modify].
  destruct (Z.ltb _ _); [|reflexivity].
  destruct (containers s !! _); reflexivity.
Qed.

(** Step through [act] once the ratio is defined: alerts, the image tag,
    [_scale_up], and a case split on each check. *)
Ltac run_act :=
  cbn -[send_webhook_alert scale_up py_gt Qdiv first_tag];
  repeat (first
    [ match goal with
      | |- context [send_webhook_alert ?e ?m ?s] =>
          let H := fresh in
          destruct (send_run e m s) as (? & H & ?); rewrite H; clear H
      end
    | match goal with |- context [if ?b then _ else _] => destruct b eqn:? end
    | match goal with
      | |- context [first_tag ?c] => unfold first_tag; destruct (tc_image_tags c)
      end
    | match goal with
      | |- context [scale_up ?e ?i ?s] => rewrite (scale_up_run e i s)
      end ];
    cbn -[send_webhook_alert scale_up py_gt Qdiv first_tag]).

(** [act] with its ratio computed. *)
Ltac start_act Hlim :=
  unfold act, py_div; rewrite (qeq_bool_false _ Hlim);
  cbv [mbind M_bind log_event modify emit mret M_ret].

(** One tick: the sample is appended, the four gauges are set to the
    averages of the new history, then [act] runs on them. *)
Lemma tick_unfold env b c rd s :
  let h := push_history (load_history s) (sample_of rd) in
  monitor_tick env b c rd s =
  let '(s2, t2, r) := act env b c (limit (rd_stats rd)) (mean s_cpu h) (mean s_mem h)
                        (mean s_sys_cpu h) (mean s_sys_mem h) (with_history s h) in
  (s2, app [GaugeSet "bot_cpu_usage" (mean s_cpu h);
            GaugeSet "bot_mem_usage" (mean s_mem h);
            GaugeSet "system_cpu_usage" (mean s_sys_cpu h);
            GaugeSet "system_mem_usage" (mean s_sys_mem h)] t2, r).
Proof.
  cbv zeta. unfold monitor_tick.
  cbv [mbind M_bind get_st emit modify]. cbn -[act mean push_history].
  destruct (act _ _ _ _ _ _ _ _ _) as [[s2 t2] r]. reflexivity.
Qed.

(** The events [act] appends are the messages of the checks that fire,
    in order. *)
Lemma act_events env b c lim a1 a2 a3 a4 s :
  ~ (lim == 0)%Q ->
  events (st_of (act env b c lim a1 a2 a3 a4) s) =
  app (events s) (spec_policy_messages b (a2 / lim) a1 a3 a4).
Proof.
  intros Hlim. unfold st_of. start_act Hlim.
  unfold spec_policy_messages. run_act.
  all: rewrite ?app_nil_r, <- ?app_assoc; reflexivity.
Qed.

(** ** The load history *)

#[global] Instance same_history_preorder : PreOrder same_history.
Proof.
  split; [intros x; reflexivity|].
  intros x y z H1 H2. unfold same_history in *. congruence.
Qed.

Lemma scale_up_history env img : stays same_history (scale_up env img).
Proof.
  intros s. unfold st_of. rewrite scale_up_run.
  destruct (Z.ltb _ _); [destruct (containers s !! _)|]; reflexivity.
Qed.

Lemma act_history env b c lim a1 a2 a3 a4 :
  stays same_history (act env b c lim a1 a2 a3 a4).
Proof.
  unfold act, send_webhook_alert, requests_post, log_event, py_div, first_tag.
  repeat first
    [ apply scale_up_history
    | stays_step ].
Qed.

(** A tick appends its sample to the one shared history, whatever
    happens after. *)
Lemma tick_history env b c rd s :
  load_history (st_of (monitor_tick env b c rd) s)
  = push_history (load_history s) (sample_of rd).
Proof.
  unfold st_of. rewrite tick_unfold. cbv zeta.
  pose proof (act_history env b c (limit (rd_stats rd))
    (mean s_cpu (push_history (load_history s) (sample_of rd)))
    (mean s_mem (push_history (load_history s) (sample_of rd)))
    (mean s_sys_cpu (push_history (load_history s) (sample_of rd)))
    (mean s_sys_mem (push_history (load_history s) (sample_of rd)))
    (with_history s (push_history (load_history s) (sample_of rd)))) as H.
  unfold same_history, st_of in H.
  destruct (act _ _ _ _ _ _ _ _ _) as [[s2 t2] r]. cbn in *. exact H.
Qed.

Lemma push_history_lastn h x :
  (length h <= 10)%nat -> push_history h x = lastn 10 (app h [x]).
Proof.
  intros Hh. unfold push_history, lastn. cbv zeta. rewrite length_app. simpl length.
  destruct (Nat.ltb_spec 10 (length h + 1)) as [Hlt|Hge].
  - replace (length h + 1 - 10)%nat with 1%nat by lia.
    destruct (app h [x]); reflexivity.
  - replace (length h + 1 - 10)%nat with 0%nat by lia. reflexivity.
Qed.

Lemma length_lastn {A} n (l : list A) : (length (lastn n l) <= n)%nat.
Proof. unfold lastn. rewrite length_drop. lia. Qed.

Lemma lastn_snoc {A} n (l : list A) x :
  (1 <= n)%nat -> lastn n (app (lastn n l) [x]) = lastn n (app l [x]).
Proof.
  intros Hn. unfold lastn. rewrite !length_app, length_drop. simpl length.
  destruct (Nat.le_gt_cases n (length l)) as [Hle|Hgt].
  - replace (length l - (length l - n) + 1 - n)%nat with 1%nat by lia.
    rewrite drop_app_le by (rewrite length_drop; lia).
    rewrite (drop_app_le l) by lia.
    rewrite drop_drop. do 2 f_equal. lia.
  - replace (length l - n)%nat with 0%nat by lia. change (drop 0 l) with l.
    replace (length l - 0 + 1 - n)%nat with (length l + 1 - n)%nat by lia.
    reflexivity.
Qed.

Lemma lastn_small {A} n (l : list A) : (length l <= n)%nat -> lastn n l = l.
Proof.
  intros H. unfold lastn. replace (length l - n)%nat with 0%nat by lia.
  reflexivity.
Qed.

(** ** The registry under the monitor *)

#[global] Instance grows_below_max_preorder : PreOrder grows_below_max.
Proof.
  split.
  - intros x. split; [reflexivity|]. split; [reflexivity|].
    intros n [v Hv] Hn. congruence.
  - intros x y z (Ex & Sx & Nx) (Ey & Sy & Ny).
    split; [congruence|]. split; [etransitivity; eauto|].
    intros n Hz Hx.
    destruct (containers y !! n) as [v|] eqn:Hy.
    + apply (Nx n); [eexists; exact Hy|exact Hx].
    + specialize (Ny n Hz Hy). pose proof (map_subseteq_size _ _ Sx). lia.
Qed.

Lemma grows_same s s' :
  containers s' = containers s -> max_containers s' = max_containers s ->
  grows_below_max s s'.
Proof.
  intros Hc Hm. split; [exact Hm|]. rewrite Hc. split; [reflexivity|].
  intros n [v Hv] Hn. congruence.
Qed.

Lemma scale_up_grows env img : stays grows_below_max (scale_up env img).
Proof.
  intros s. unfold st_of. rewrite scale_up_run.
  destruct (Z.ltb_spec (Z.of_nat (size (containers s))) (max_containers s)) as [Hlt|Hge].
  - destruct (containers s !! env_new_name env) eqn:Hn; cbn; [reflexivity|].
    split; [reflexivity|]. split.
    + apply insert_subseteq. exact Hn.
    + intros; exact Hlt.
  - reflexivity.
Qed.

Lemma act_grows env b c lim a1 a2 a3 a4 :
  stays grows_below_max (act env b c lim a1 a2 a3 a4).
Proof.
  unfold act, send_webhook_alert, requests_post, log_event, py_div, first_tag.
  repeat first
    [ apply scale_up_grows
    | apply (stays_modify grows_below_max); intros; apply grows_same; reflexivity
    | stays_step ].
Qed.

Lemma tick_grows env b c rd : stays grows_below_max (monitor_tick env b c rd).
Proof.
  unfold monitor_tick.
  repeat first
    [ apply act_grows
    | apply (stays_modify grows_below_max); intros; apply grows_same; reflexivity
    | stays_step ].
Qed.

(** ** A tick split into its parts *)

(** The state, trace and result of a tick are those of [act] run on the
    averages of the new history, after the four gauge updates. *)
Lemma tick_parts env b c rd s :
  let h := push_history (load_history s) (sample_of rd) in
  let m := act env b c (limit (rd_stats rd)) (mean s_cpu h) (mean s_mem h)
             (mean s_sys_cpu h) (mean s_sys_mem h) in
  st_of (monitor_tick env b c rd) s = st_of m (with_history s h) /\
  tr_of (monitor_tick env b c rd) s = app (gauge_effects h) (tr_of m (with_history s h)) /\
  res_of (monitor_tick env b c rd) s = res_of m (with_history s h).
Proof.
  cbv zeta. unfold st_of, tr_of, res_of. rewrite tick_unfold. cbv zeta.
  destruct (act _ _ _ _ _ _ _ _ _) as [[s2 t2] r]. repeat split; reflexivity.
Qed.

Lemma tick_gauges env b c rd s :
  take 4 (tr_of (monitor_tick env b c rd) s)
  = gauge_effects (push_history (load_history s) (sample_of rd)).
Proof.
  destruct (tick_parts env b c rd s) as (_ & E & _). cbv zeta in E.
  rewrite E. reflexivity.
Qed.

(** ** The window *)

Lemma lastn_app {A} n (l k : list A) :
  lastn n (app (lastn n l) k) = lastn n (app l k).
Proof.
  unfold lastn. rewrite !length_app, length_drop.
  rewrite <- (drop_app_le l k (length l - n)) by lia.
  rewrite drop_drop. f_equal. lia.
Qed.

Lemma history_fold h xs :
  (length h <= 10)%nat ->
  fold_left push_history xs h = lastn 10 (app h xs).
Proof.
  revert h. induction xs as [|x xs IH]; intros h Hh; cbn.
  - rewrite app_nil_r, lastn_small by exact Hh. reflexivity.
  - rewrite push_history_lastn by exact Hh.
    rewrite IH by apply length_lastn.
    rewrite lastn_app, <- app_assoc. reflexivity.
Qed.

Lemma run_ticks_history s (ts : list TickIn) :
  load_history (run_ticks s ts)
  = fold_left push_history (map (fun t : TickIn => sample_of (ti_reading t)) ts)
      (load_history s).
Proof.
  unfold run_ticks. revert s. induction ts as [|t ts IH]; intros s; [reflexivity|].
  cbn [fold_left map]. rewrite IH. f_equal. apply tick_history.
Qed.

(** [sum_field] is the sum of the field. *)
Lemma sum_field_foldr (f : Sample -> Q) (h : list Sample) (a : Q) :
  (fold_left (fun acc x => acc + f x) h a == a + foldr Qplus 0 (map f h))%Q.
Proof.
  revert a. induction h as [|x h IH]; intros a; cbn.
  - ring.
  - rewrite IH. ring.
Qed.

Lemma mean_arith f h : (mean f h == arith_mean f h)%Q.
Proof.
  unfold mean, arith_mean, sum_field. rewrite sum_field_foldr.
  rewrite Qplus_0_l. reflexivity.
Qed.

(** ** What the resizes write *)

Lemma send_trace P env m : (forall u, P (WebhookPost u m)) ->
  (forall l, P (Printed l)) -> trace_ok P (send_webhook_alert env m).
Proof.
  intros Hw Hp.
  unfold send_webhook_alert, requests_post.
  repeat first [ apply trace_emit; solve [auto] | trace_step ].
Qed.

Lemma scale_up_trace P env img : (forall l, P (Printed l)) ->
  (forall i n, P (ContainerRun i n)) -> trace_ok P (scale_up env img).
Proof.
  intros Hp Hr. unfold scale_up.
  repeat first [ apply trace_emit; solve [auto] | trace_step ].
Qed.

Lemma act_resize env b c lim a1 a2 a3 a4 :
  trace_ok (resize_ok lim a1) (act env b c lim a1 a2 a3 a4).
Proof.
  unfold act, log_event, py_div, first_tag.
  repeat first
    [ apply send_trace; intros; exact I
    | apply scale_up_trace; intros; exact I
    | apply trace_emit; reflexivity
    | trace_step ].
Qed.

(** ** Delivery outcomes do not reach the state *)

Lemma send_agree p1 p2 n q m :
  agree (send_webhook_alert (mkEnv p1 n q) m) (send_webhook_alert (mkEnv p2 n q) m).
Proof.
  intros s. unfold st_of, res_of.
  destruct (send_run (mkEnv p1 n q) m s) as (t1 & E1 & _).
  destruct (send_run (mkEnv p2 n q) m s) as (t2 & E2 & _).
  rewrite E1, E2. split; reflexivity.
Qed.

Lemma scale_up_agree p1 p2 n q img :
  agree (scale_up (mkEnv p1 n q) img) (scale_up (mkEnv p2 n q) img).
Proof.
  intros s. unfold st_of, res_of. rewrite !scale_up_run. cbn.
  destruct (Z.ltb _ _); [destruct (containers s !! n)|]; split; reflexivity.
Qed.

Lemma act_agree p1 p2 n q b c lim a1 a2 a3 a4 :
  agree (act (mkEnv p1 n q) b c lim a1 a2 a3 a4) (act (mkEnv p2 n q) b c lim a1 a2 a3 a4).
Proof.
  unfold act. cbv zeta.
  repeat first
    [ apply send_agree
    | apply scale_up_agree
    | apply agree_bind; [|intros ?]
    | match goal with |- agree (if ?x then _ else _) _ => destruct x end
    | apply agree_refl ].
Qed.

End TaskMgrFacts.

(* ------------------------------------------------------------------ *)
(** ** The monitor loop of [task_manager.py] *)

Module MonitorClaims.
Import TaskMgr Observe TaskMgrFacts Fixtures.
Local Open Scope Z_scope.

(** C2 (as the code has it): the checks of a tick use the window means of
    CPU usage, memory usage, host CPU% and host memory%, but the memory
    ratio divides the smoothed memory usage by the memory limit read in
    this tick, not by a smoothed limit.  The events a tick appends are
    exactly the messages of [spec_policy_messages] on these values. *)
Theorem decisions_use_smoothed_usage_and_read_limit env b c rd s :
  ~ (limit (rd_stats rd) == 0)%Q ->
  let h := push_history (load_history s) (sample_of rd) in
  events (st_of (monitor_tick env b c rd) s) =
  app (events s)
    (spec_policy_messages b (mean s_mem h / limit (rd_stats rd))
       (mean s_cpu h) (mean s_sys_cpu h) (mean s_sys_mem h)).
Proof.
  intros Hlim. cbv zeta.
  destruct (tick_parts env b c rd s) as (E & _ & _). cbv zeta in E.
  rewrite E, act_events by exact Hlim. reflexivity.
Qed.

Lemma decisions_use_smoothed_usage_and_read_limit_witness :
  events (st_of (monitor_tick env0 "shadow_bot_1" bot_a (reading 10 100 110 10 10)) tm0) =
  app (events tm0)
    (spec_policy_messages "shadow_bot_1"
       (mean s_mem [sample_of (reading 10 100 110 10 10)] / 110)
       (mean s_cpu [sample_of (reading 10 100 110 10 10)])
       (mean s_sys_cpu [sample_of (reading 10 100 110 10 10)])
       (mean s_sys_mem [sample_of (reading 10 100 110 10 10)])).
Proof.
  apply (decisions_use_smoothed_usage_and_read_limit env0 "shadow_bot_1" bot_a
           (reading 10 100 110 10 10) tm0).
  vm_compute. intros H. discriminate H.
Defined.

(** C2 counterexample: two readings with memory usage 100 and limits 1000
    then 110.  The second tick divides the smoothed usage 100 by the limit
    110 it reads (ratio > 0.9) and grows memory, restarts and scales out;
    with the smoothed limit 555 the ratio is below 0.2 and no check
    fires. *)
Lemma smoothed_limit_counterexample :
  let rd1 := reading 10 100 1000 10 10 in
  let rd2 := reading 10 100 110 10 10 in
  let s1 := st_of (monitor_tick env0 "shadow_bot_1" bot_a rd1) tm0 in
  actions_of (tr_of (monitor_tick env0 "shadow_bot_1" bot_a rd2) s1)
    = [GrowMemory; RestartContainer; ScaleOut] /\
  spec_policy_messages "shadow_bot_1" (spec_smoothed_ratio [rd1; rd2]) 10 10 10 = [] /\
  events (st_of (monitor_tick env0 "shadow_bot_1" bot_a rd2) s1)
    <> app (events s1)
         (spec_policy_messages "shadow_bot_1" (spec_smoothed_ratio [rd1; rd2]) 10 10 10).
Proof.
  vm_compute. split; [reflexivity|]. split; [reflexivity|]. intros H. discriminate H.
Qed.

(** C3: the four checks are independent.  For averages where all four
    conditions hold (with a defined ratio, an image tag and room for one
    more container under a fresh name), one run of the checks performs
    all four actions, in the order GrowMemory, GrowCpu, RestartContainer,
    ScaleOut, and returns normally. *)
Theorem all_four_checks_fire env b c lim avg_cpu avg_mem avg_sys_cpu avg_sys_mem s :
  ~ (lim == 0)%Q ->
  py_gt (avg_mem / lim) (8#10) || py_gt avg_sys_mem 85 = true ->
  py_gt avg_cpu 50000 || py_gt avg_sys_cpu 85 = true ->
  py_gt (avg_mem / lim) (9#10) || py_gt avg_cpu 70000 = true ->
  py_gt avg_cpu 60000 || py_gt (avg_mem / lim) (85#100) = true ->
  tc_image_tags c <> [] ->
  Z.of_nat (size (containers s)) < max_containers s ->
  containers s !! env_new_name env = None ->
  actions_of (tr_of (act env b c lim avg_cpu avg_mem avg_sys_cpu avg_sys_mem) s)
    = [GrowMemory; GrowCpu; RestartContainer; ScaleOut] /\
  res_of (act env b c lim avg_cpu avg_mem avg_sys_cpu avg_sys_mem) s = Ok tt.
Proof.
  intros Hlim H1 H2 H3 H4 Htag Hcap Hfresh.
  unfold tr_of, res_of. start_act Hlim.
  cbn -[py_gt Qdiv] in H1, H2, H3, H4.
  run_act.
  all: try discriminate.
  all: try congruence.
  all: try (exfalso; apply Htag; reflexivity).
  all: try (match goal with E : Z.ltb _ _ = false |- _ => apply Z.ltb_ge in E; lia end).
  all: unfold actions_of in *; rewrite !omap_app.
  all: repeat match goal with H : omap action_of ?t = [] |- _ => rewrite H; clear H end.
  all: split; reflexivity.
Qed.

(** The spec's snapshot: memory ratio 0.95 (usage 950, limit 1000) and
    host CPU% 90, with room to scale out. *)
Lemma all_four_checks_fire_witness :
  actions_of (tr_of (act env0 "shadow_bot_1" bot_a 1000 0 950 90 0) tm0)
    = [GrowMemory; GrowCpu; RestartContainer; ScaleOut] /\
  res_of (act env0 "shadow_bot_1" bot_a 1000 0 950 90 0) tm0 = Ok tt.
Proof.
  apply (all_four_checks_fire env0 "shadow_bot_1" bot_a 1000 0 950 90 0 tm0).
  all: vm_compute; first [reflexivity | intros H; discriminate H].
Defined.

(** The same snapshot through a whole tick: the first reading of a fresh
    monitor is its own average. *)
Example all_four_in_one_tick :
  actions_of (tr_of (monitor_tick env0 "shadow_bot_1" bot_a
                       (reading 0 950 1000 90 0)) tm0)
  = [GrowMemory; GrowCpu; RestartContainer; ScaleOut].
Proof. vm_compute. reflexivity. Qed.

(** C4: from a history of at most 10 samples (the constructor starts
    from the empty list), after any sequence of ticks the history holds at
    most 10 samples, and they are the last 10 of all samples appended, in
    order: the oldest are evicted first. *)
Theorem load_history_keeps_last_ten s ts :
  (length (load_history s) <= 10)%nat ->
  (length (load_history (run_ticks s ts)) <= 10)%nat /\
  load_history (run_ticks s ts)
  = lastn 10 (app (load_history s) (map (fun t : TickIn => sample_of (ti_reading t)) ts)).
Proof.
  intros H. rewrite run_ticks_history, history_fold by exact H.
  split; [apply length_lastn | reflexivity].
Qed.

Lemma load_history_keeps_last_ten_witness :
  (length (load_history (run_ticks tm0 quiet_ticks)) <= 10)%nat /\
  load_history (run_ticks tm0 quiet_ticks)
  = lastn 10 (app (load_history tm0)
                (map (fun t : TickIn => sample_of (ti_reading t)) quiet_ticks)).
Proof.
  apply (load_history_keeps_last_ten tm0 quiet_ticks). vm_compute. lia.
Defined.

(** Twelve ticks keep the samples of ticks 3 to 12. *)
Example twelve_ticks_keep_last_ten :
  map s_cpu (load_history (run_ticks tm0 quiet_ticks))
  = map (fun i => inject_Z i) [3; 4; 5; 6; 7; 8; 9; 10; 11; 12].
Proof. vm_compute. reflexivity. Qed.

(** C5: the values a tick exports on its four gauges and the values its
    checks run on are the means of the four fields over the history the
    tick leaves, which is the retained window with the new sample; each
    is the plain arithmetic mean. *)
Theorem smoothed_values_are_window_means env b c rd s :
  let h := load_history (st_of (monitor_tick env b c rd) s) in
  h = push_history (load_history s) (sample_of rd) /\
  take 4 (tr_of (monitor_tick env b c rd) s) = gauge_effects h /\
  st_of (monitor_tick env b c rd) s
    = st_of (act env b c (limit (rd_stats rd)) (mean s_cpu h) (mean s_mem h)
               (mean s_sys_cpu h) (mean s_sys_mem h)) (with_history s h) /\
  res_of (monitor_tick env b c rd) s
    = res_of (act env b c (limit (rd_stats rd)) (mean s_cpu h) (mean s_mem h)
               (mean s_sys_cpu h) (mean s_sys_mem h)) (with_history s h) /\
  (forall f, mean f h == arith_mean f h)%Q.
Proof.
  cbv zeta. rewrite tick_history.
  destruct (tick_parts env b c rd s) as (E1 & _ & E3). cbv zeta in E1, E3.
  split; [reflexivity|]. split; [apply tick_gauges|].
  split; [exact E1|]. split; [exact E3|].
  intros f. apply mean_arith.
Qed.

(** CPU samples 10, 20, 30 have mean 20; with a window of 10, eleven
    samples 10, ..., 110 keep 20, ..., 110, of mean 65. *)
Example mean_of_three :
  (mean s_cpu (fold_left push_history
     [mkSample 10 0 0 0; mkSample 20 0 0 0; mkSample 30 0 0 0] []) == 20)%Q.
Proof. vm_compute. reflexivity. Qed.

Example mean_after_eviction :
  (mean s_cpu (fold_left push_history
     (map (fun i => mkSample (inject_Z (10 * i)) 0 0 0)
        [1; 2; 3; 4; 5; 6; 7; 8; 9; 10; 11]%Z) []) == 65)%Q.
Proof. vm_compute. reflexivity. Qed.

(** C7 (as the code has it): every memory resize a tick writes is
    [int(limit * 1.2)] for the limit read in this tick, and every CPU
    resize is [int(avg_cpu * 1.2)] for the smoothed CPU usage counter,
    both products in binary64; the container's current quota is not
    read. *)
Theorem resize_values_from_reading_and_usage env b c rd s :
  let h := push_history (load_history s) (sample_of rd) in
  Forall (resize_ok (limit (rd_stats rd)) (mean s_cpu h))
    (tr_of (monitor_tick env b c rd) s).
Proof.
  cbv zeta.
  destruct (tick_parts env b c rd s) as (_ & E & _). cbv zeta in E.
  rewrite E. apply Forall_app. split.
  - unfold gauge_effects. repeat constructor.
  - apply act_resize.
Qed.

(** C7 counterexample: a container with quota 50000 under host CPU 90%
    and CPU counter 1000.  GrowCpu fires and sets the quota to 1200,
    below the current quota, not to 1.2 times it. *)
Lemma grow_cpu_counterexample :
  let t := tr_of (monitor_tick env0 "shadow_bot_1" bot_a (reading 1000 1 1000 90 10)) tm0 in
  actions_of t = [GrowCpu] /\
  In (UpdateCpu "shadow_bot_1" 1200) t /\
  tc_cpu_quota bot_a = 50000 /\
  1200 <> py_int_mul (inject_Z (tc_cpu_quota bot_a)) (12#10).
Proof.
  vm_compute. split; [reflexivity|]. split.
  - repeat first [left; reflexivity | right].
  - split; [reflexivity | intros H; discriminate H].
Qed.

(** The CPU quota is the binary64 product: after CPU readings 10, 10
    and 15 under host CPU 90%, [avg_cpu] is the float 11.666666666666666
    and [int(avg_cpu * 1.2)] is 13, where the exact [1.2 * 35/3] is 14. *)
Example grow_cpu_quota_float_rounding :
  let ti cpu := mkTickIn env0 "shadow_bot_1" bot_a (reading cpu 1 1000 90 10) in
  let s2 := run_ticks tm0 [ti 10%Q; ti 10%Q] in
  In (UpdateCpu "shadow_bot_1" 13%Z)
    (tr_of (monitor_tick env0 "shadow_bot_1" bot_a (reading 15 1 1000 90 10)) s2) /\
  py_int_mul (35#3) (12#10) = 13%Z.
Proof.
  vm_compute. split; [|reflexivity].
  repeat first [left; reflexivity | right].
Qed.

(** C8 (as the code has it): an alert returns normally and leaves the
    object as it is; with no URL (or the empty one) it does nothing; a
    post that raises is caught and printed; a post that answers, with any
    status, is not checked and prints nothing.  The state a tick leaves
    (events included) and its result do not depend on what the posts
    do. *)
Theorem alert_never_raises :
  (forall env m s, exists t, send_webhook_alert env m s = (s, t, Ok tt)) /\
  (forall env m s, webhook_url s = None \/ webhook_url s = Some "" ->
     send_webhook_alert env m s = (s, [], Ok tt)) /\
  (forall env m s u e, webhook_url s = Some u -> u <> "" ->
     env_post env u m = PostRaised e ->
     send_webhook_alert env m s
     = (s, [WebhookPost u m; Printed ("Błąd podczas wysyłania webhooka: " +:+ e)], Ok tt)) /\
  (forall env m s u st, webhook_url s = Some u -> u <> "" ->
     env_post env u m = Responded st ->
     send_webhook_alert env m s = (s, [WebhookPost u m], Ok tt)) /\
  (forall p1 p2 n q b c rd s,
     st_of (monitor_tick (mkEnv p1 n q) b c rd) s
       = st_of (monitor_tick (mkEnv p2 n q) b c rd) s /\
     res_of (monitor_tick (mkEnv p1 n q) b c rd) s
       = res_of (monitor_tick (mkEnv p2 n q) b c rd) s).
Proof.
  split; [intros env m s; destruct (send_run env m s) as (t & E & _); eauto|].
  split; [|split; [|split]].
  - intros env m s [E|E]; unfold send_webhook_alert;
      cbv [mbind M_bind get_st mret M_ret]; rewrite E; reflexivity.
  - intros env m s u e Eu Hu Ep. unfold send_webhook_alert, requests_post, try_except.
    cbv [mbind M_bind get_st mret M_ret emit raise]. rewrite Eu.
    apply String.eqb_neq in Hu. rewrite Hu, Ep. reflexivity.
  - intros env m s u st Eu Hu Ep. unfold send_webhook_alert, requests_post, try_except.
    cbv [mbind M_bind get_st mret M_ret emit raise]. rewrite Eu.
    apply String.eqb_neq in Hu. rewrite Hu, Ep. reflexivity.
  - intros p1 p2 n q b c rd s.
    destruct (tick_parts (mkEnv p1 n q) b c rd s) as (S1 & _ & R1).
    destruct (tick_parts (mkEnv p2 n q) b c rd s) as (S2 & _ & R2).
    cbv zeta in S1, S2, R1, R2. rewrite S1, S2, R1, R2.
    apply act_agree.
Qed.

Lemma alert_never_raises_witness :
  send_webhook_alert (mkEnv raising_post "shadow_bot_9" 50000) "alert" tm_hook
  = (tm_hook, [WebhookPost hook_url "alert";
               Printed ("Błąd podczas wysyłania webhooka: " +:+ "ConnectionError")], Ok tt) /\
  send_webhook_alert (mkEnv status500_post "shadow_bot_9" 50000) "alert" tm_hook
  = (tm_hook, [WebhookPost hook_url "alert"], Ok tt) /\
  send_webhook_alert env0 "alert" tm0 = (tm0, [], Ok tt).
Proof.
  split; [|split].
  - apply (proj1 (proj2 (proj2 alert_never_raises))
             (mkEnv raising_post "shadow_bot_9" 50000) "alert" tm_hook hook_url
             "ConnectionError").
    all: vm_compute; first [reflexivity | intros H; discriminate H].
  - apply (proj1 (proj2 (proj2 (proj2 alert_never_raises)))
             (mkEnv status500_post "shadow_bot_9" 50000) "alert" tm_hook hook_url 500).
    all: vm_compute; first [reflexivity | intros H; discriminate H].
  - apply (proj1 (proj2 alert_never_raises) env0 "alert" tm0). left. reflexivity.
Defined.

(** C8 counterexample: the endpoint answers [500].  [requests.post]
    does not raise on an error status, so the alert records the post and
    nothing else: the failed delivery is not logged locally. *)
Lemma http_error_not_logged_counterexample :
  send_webhook_alert (mkEnv status500_post "shadow_bot_9" 50000) "alert" tm_hook
  = (tm_hook, [WebhookPost hook_url "alert"], Ok tt) /\
  status500_post hook_url "alert" = Responded 500.
Proof. vm_compute. split; reflexivity. Qed.

(** C9 (as the code has it): [load_history] is one list of the
    [TaskManager], shared by all monitors.  A tick of A's monitor appends
    A's sample to it, and the next tick of B's monitor exports and
    decides on the means over that list with B's sample appended. *)
Theorem load_history_shared_by_monitors envA a cA rdA envB b cB rdB s :
  let s1 := st_of (monitor_tick envA a cA rdA) s in
  let hB := push_history (push_history (load_history s) (sample_of rdA)) (sample_of rdB) in
  load_history s1 = push_history (load_history s) (sample_of rdA) /\
  take 4 (tr_of (monitor_tick envB b cB rdB) s1) = gauge_effects hB /\
  st_of (monitor_tick envB b cB rdB) s1
    = st_of (act envB b cB (limit (rd_stats rdB)) (mean s_cpu hB) (mean s_mem hB)
               (mean s_sys_cpu hB) (mean s_sys_mem hB)) (with_history s1 hB).
Proof.
  cbv zeta. split; [apply tick_history|]. split.
  - rewrite tick_gauges, tick_history. reflexivity.
  - destruct (tick_parts envB b cB rdB (st_of (monitor_tick envA a cA rdA) s))
      as (E & _ & _).
    cbv zeta in E. rewrite E, tick_history. reflexivity.
Qed.

(** C9 counterexample: two monitored containers.  After a tick of
    [shadow_bot_1] reading CPU 1000, the tick of [shadow_bot_2] reading
    CPU 3000 exports the average 2000; without the other tick it exports
    3000. *)
Lemma history_shared_counterexample :
  let rdA := reading 1000 10 100 10 10 in
  let rdB := reading 3000 10 100 10 10 in
  let s1 := st_of (monitor_tick env0 "shadow_bot_1" bot_a rdA) tm2 in
  monitor_start tm2 "shadow_bot_1" = Some bot_a /\
  monitor_start tm2 "shadow_bot_2" = Some bot_a /\
  load_history s1 <> load_history tm2 /\
  match first_gauge (tr_of (monitor_tick env0 "shadow_bot_2" bot_a rdB) s1),
        first_gauge (tr_of (monitor_tick env0 "shadow_bot_2" bot_a rdB) tm2) with
  | Some v1, Some v2 => (v1 == 2000 /\ v2 == 3000 /\ ~ (v1 == v2))%Q
  | _, _ => False
  end.
Proof.
  vm_compute. split; [reflexivity|]. split; [reflexivity|]. split.
  - intros H. discriminate H.
  - split; [reflexivity|]. split; [reflexivity|]. intros H. discriminate H.
Qed.

(** C6: a scale-out adds a container only below the maximum.  [_scale_up]
    at the maximum only reports [CapacityExceeded] and returns normally;
    no tick adds a container unless the count was below
    [max_containers]; the coarse [auto_scale_bots] creates a bot only
    below [max_bots], and at [max_bots] its scale-out branch changes
    nothing and returns normally. *)
Theorem scale_out_only_below_max :
  (forall env img s, max_containers s <= Z.of_nat (size (containers s)) ->
     scale_up env img s = (s, [Printed "CapacityExceeded"], Ok tt)) /\
  (forall env b c rd s n,
     is_Some (containers (st_of (monitor_tick env b c rd) s) !! n) ->
     containers s !! n = None ->
     Z.of_nat (size (containers s)) < max_containers s) /\
  (forall docker_run docker_remove m cpu mem r k,
     let p := ShadowBot.auto_scale_bots docker_run docker_remove m cpu mem r k in
     (forall n, is_Some (ShadowBot.bots (fst p) !! n) -> ShadowBot.bots m !! n = None ->
        Z.of_nat (size (ShadowBot.bots m)) < ShadowBot.max_bots m) /\
     (ShadowBot.max_bots m <= Z.of_nat (size (ShadowBot.bots m)) ->
      py_gt cpu 80
      || (py_gt mem 80
          && Z.ltb (Z.of_nat (size (ShadowBot.bots m))) (ShadowBot.max_bots m)) = true ->
      p = (m, ShadowBot.Returned tt))).
Proof.
  split; [|split].
  - intros env img s H. rewrite scale_up_run.
    destruct (Z.ltb_spec (Z.of_nat (size (containers s))) (max_containers s));
      [lia | reflexivity].
  - intros env b c rd s n Hn Hs.
    destruct (tick_grows env b c rd s) as (_ & _ & G). exact (G n Hn Hs).
  - intros. apply ShadowBotFacts.auto_scale_bound.
Qed.

Lemma scale_out_only_below_max_witness :
  scale_up env0 "shadow_bot_image:latest" tm_full
    = (tm_full, [Printed "CapacityExceeded"], Ok tt) /\
  ShadowBot.auto_scale_bots BotFixtures.stub_run BotFixtures.stub_remove
    BotFixtures.manager_full 90%Q 10%Q 1234 0%nat
    = (BotFixtures.manager_full, ShadowBot.Returned tt).
Proof.
  split.
  - apply (proj1 scale_out_only_below_max). vm_compute. intros H. discriminate H.
  - apply (proj2 (proj2 (proj2 scale_out_only_below_max)
             BotFixtures.stub_run BotFixtures.stub_remove BotFixtures.manager_full
             90%Q 10%Q 1234 0%nat)).
    + vm_compute. intros H. discriminate H.
    + vm_compute. reflexivity.
Defined.

End MonitorClaims.

(* ------------------------------------------------------------------ *)
(** ** The task queue *)

Module TaskQueueFacts.
Import TaskQueue.
Local Open Scope Z_scope.

Lemma task_eqb_eq a b : task_eqb a b = true <-> a = b.
Proof.
  destruct a as [p1 e1 l1], b as [p2 e2 l2]; unfold task_eqb; cbn.
  rewrite !andb_true_iff, !Z.eqb_eq, String.eqb_eq.
  split; [intros [[-> ->] ->]; reflexivity | intros H; inversion H; auto].
Qed.

Lemma str_ltb_spec a b :
  match String_as_OT.compare a b with Lt => true | _ => false end = true
  <-> String_as_OT.lt a b.
Proof.
  unfold String_as_OT.lt.
  destruct (String_as_OT.compare a b); split; intros; congruence.
Qed.

Lemma task_lt_spec a b : task_lt a b = true <-> tlt a b.
Proof.
  unfold task_lt, tlt.
  rewrite !orb_true_iff, !andb_true_iff, !orb_true_iff, !andb_true_iff,
    !Z.ltb_lt, !Z.eqb_eq, str_ltb_spec.
  reflexivity.
Qed.

Lemma tlt_irrefl a : ~ tlt a a.
Proof.
  unfold tlt. intros [H|[_ [H|[_ H]]]]; try lia.
  exact (@StrictOrder_Irreflexive _ _ String_as_OT.lt_strorder _ H).
Qed.

Lemma tlt_trans a b c : tlt a b -> tlt b c -> tlt a c.
Proof.
  unfold tlt. intros H1 H2.
  destruct H1 as [H1|[E1 [H1|[F1 L1]]]], H2 as [H2|[E2 [H2|[F2 L2]]]];
    try (left; lia); right; (split; [lia|]); try (left; lia).
  right. split; [lia|].
  exact (@StrictOrder_Transitive _ _ String_as_OT.lt_strorder _ _ _ L1 L2).
Qed.

(** [min] returns one of the entries, no entry is below it, and it is
    the start value or below it. *)
Lemma pq_min_spec l : forall x,
  (pq_min x l = x \/ tlt (pq_min x l) x) /\
  In (pq_min x l) (x :: l) /\
  (forall y, In y (x :: l) -> ~ tlt y (pq_min x l)).
Proof.
  induction l as [|z l IH]; intros x.
  - split; [left; reflexivity|]. split; [left; reflexivity|].
    intros y [<-|[]]. apply tlt_irrefl.
  - change (pq_min x (z :: l)) with (pq_min (if task_lt z x then z else x) l).
    destruct (task_lt z x) eqn:Hzx.
    + apply task_lt_spec in Hzx.
      destruct (IH z) as (Hle & Hin & Hmin).
      split; [|split].
      * right. destruct Hle as [->|Hlt]; [exact Hzx | eapply tlt_trans; eassumption].
      * right. exact Hin.
      * intros y [<-|Hy]; [|apply Hmin; exact Hy].
        intros Hym. apply (tlt_irrefl z).
        destruct Hle as [Ez|Hlt].
        -- rewrite Ez in Hym. eapply tlt_trans; eassumption.
        -- eapply tlt_trans; [exact Hzx|]. eapply tlt_trans; eassumption.
    + assert (Hn : ~ tlt z x) by (rewrite <- task_lt_spec; congruence).
      destruct (IH x) as (Hle & Hin & Hmin).
      split; [exact Hle|]. split.
      * destruct Hin as [Hx|Hl]; [left; exact Hx | right; right; exact Hl].
      * intros y [<-|[<-|Hy]].
        -- apply Hmin. left. reflexivity.
        -- intros Hym. apply Hn. destruct Hle as [Ex|Hlt].
           ++ rewrite <- Ex. exact Hym.
           ++ eapply tlt_trans; eassumption.
        -- apply Hmin. right. exact Hy.
Qed.

Lemma remove_first_perm x l :
  In x l -> Permutation l (x :: remove_first x l).
Proof.
  induction l as [|y l IH]; intros Hin; [destruct Hin|].
  cbn. destruct (task_eqb x y) eqn:E.
  - apply task_eqb_eq in E. subst. reflexivity.
  - destruct Hin as [Ey|Hin].
    + subst y. assert (task_eqb x x = true) by (apply task_eqb_eq; reflexivity). congruence.
    + etransitivity; [apply perm_skip, IH, Hin | apply perm_swap].
Qed.

(** [get] on a non-empty queue: it takes one entry out, and no entry
    left is below it. *)
Lemma pq_get_spec q : q <> [] ->
  exists x r, pq_get q = Some (x, r) /\ Permutation q (x :: r) /\
    (forall y, In y r -> ~ tlt y x).
Proof.
  destruct q as [|e r]; [contradiction|]. intros _.
  destruct (pq_min_spec r e) as (_ & Hin & Hmin).
  eexists _, _. split; [reflexivity|].
  pose proof (remove_first_perm _ _ Hin) as P. split; [exact P|].
  intros y Hy. apply Hmin.
  apply (Permutation_in _ (Permutation_sym P)). right. exact Hy.
Qed.

Lemma pop_none t : entries t = [] -> pop t = None.
Proof. intros E. unfold pop. rewrite E. reflexivity. Qed.

Lemma pop_some t : entries t <> [] ->
  exists x t', pop t = Some (x, t') /\ clock t' = clock t /\
    Permutation (entries t) (x :: entries t') /\
    (forall y, In y (entries t') -> ~ tlt y x).
Proof.
  intros H. destruct (pq_get_spec _ H) as (x & r & E & P & Hmin).
  exists x, (mkTQ r (clock t)). unfold pop. rewrite E.
  split; [reflexivity|]. split; [reflexivity|]. split; assumption.
Qed.

Lemma inv_init : tq_inv (mkTQ [] 0).
Proof. split; constructor. Qed.

Lemma inv_push t p pl : tq_inv t -> tq_inv (push t p pl).
Proof.
  intros [Hn Hf]. unfold push. split; cbn.
  - rewrite map_app. cbn.
    eapply Permutation_NoDup; [apply Permutation_cons_append|].
    constructor; [|exact Hn].
    intros Hin. apply in_map_iff in Hin as (y & Ey & Hy).
    rewrite List.Forall_forall in Hf. specialize (Hf y Hy). lia.
  - rewrite List.Forall_forall in *. intros y Hy.
    apply in_app_or in Hy as [Hy|[<-|[]]]; [specialize (Hf y Hy); lia | cbn; lia].
Qed.

Lemma inv_pop t x t' : tq_inv t -> pop t = Some (x, t') ->
  tq_inv t' /\ ~ In (enqueued_at x) (map enqueued_at (entries t')).
Proof.
  intros [Hn Hf] E.
  assert (Hne : entries t <> []) by (intros H; rewrite pop_none in E; congruence).
  destruct (pop_some t Hne) as (x1 & t1 & E1 & C & P & _).
  rewrite E in E1. injection E1 as <- <-.
  pose proof (Permutation_NoDup (Permutation_map enqueued_at P) Hn) as N.
  cbn in N. apply NoDup_cons_iff in N as [Nx N].
  split; [split|exact Nx].
  - exact N.
  - rewrite List.Forall_forall in *. intros y Hy. rewrite C.
    apply Hf. apply (Permutation_in _ (Permutation_sym P)). right. exact Hy.
Qed.

Lemma inv_run_qop t o : tq_inv t -> tq_inv (run_qop t o).
Proof.
  intros H. destruct o as [p pl|]; cbn; [apply inv_push, H|].
  destruct (pop t) as [[x t']|] eqn:E; [|exact H].
  exact (proj1 (inv_pop t x t' H E)).
Qed.

Lemma inv_run_qops os : tq_inv (run_qops os).
Proof.
  unfold run_qops. generalize inv_init. generalize (mkTQ [] 0).
  induction os as [|o os IH]; intros t H; [exact H|]. cbn. apply IH, inv_run_qop, H.
Qed.

Lemma order_of_not_tlt x y :
  ~ tlt y x -> enqueued_at y <> enqueued_at x ->
  priority x < priority y \/ (priority x = priority y /\ enqueued_at x < enqueued_at y).
Proof.
  unfold tlt. intros H Hne.
  destruct (Z.lt_trichotomy (priority x) (priority y)) as [L|[E|G]].
  - left. exact L.
  - right. split; [exact E|].
    destruct (Z.lt_trichotomy (enqueued_at x) (enqueued_at y)) as [L|[E2|G]];
      [exact L | congruence|].
    exfalso. apply H. right. split; [congruence | left; exact G].
  - exfalso. apply H. left. exact G.
Qed.

(** C10 (modelled on the spec's tasks): on any queue reached by puts and
    gets from the empty queue, a get on an empty queue has nothing to
    return ([get] blocks); a put stamps its task with the clock, above
    every stamp present, so stamps follow insertion order; and a get
    returns one of the entries such that every entry left has a larger
    priority, or the same priority and a later stamp: the lowest
    priority first, FIFO among equal priorities. *)
Theorem pop_lowest_priority_then_fifo os :
  let t := run_qops os in
  (entries t = [] -> pop t = None) /\
  (forall p pl, entries (push t p pl) = app (entries t) [mkTask p (clock t) pl] /\
     List.Forall (fun y => enqueued_at y < clock t) (entries t)) /\
  (entries t <> [] ->
   exists x t', pop t = Some (x, t') /\
     Permutation (entries t) (x :: entries t') /\
     forall y, In y (entries t') ->
       priority x < priority y
       \/ (priority x = priority y /\ enqueued_at x < enqueued_at y)).
Proof.
  cbv zeta. pose proof (inv_run_qops os) as I.
  split; [apply pop_none|]. split.
  - intros p pl. split; [reflexivity | exact (proj2 I)].
  - intros Hne. destruct (pop_some _ Hne) as (x & t' & E & _ & P & Hmin).
    exists x, t'. split; [exact E|]. split; [exact P|].
    intros y Hy. apply order_of_not_tlt; [exact (Hmin y Hy)|].
    intros Ey. apply (proj2 (inv_pop _ x t' I E)).
    rewrite <- Ey. apply in_map. exact Hy.
Qed.

Lemma pop_lowest_priority_then_fifo_witness :
  let t := run_qops [QPush 5 "a"; QPush 1 "b"; QPush 3 "c"] in
  exists x t', pop t = Some (x, t') /\
    Permutation (entries t) (x :: entries t') /\
    forall y, In y (entries t') ->
      priority x < priority y
      \/ (priority x = priority y /\ enqueued_at x < enqueued_at y).
Proof.
  apply (proj2 (proj2 (pop_lowest_priority_then_fifo
                         [QPush 5 "a"; QPush 1 "b"; QPush 3 "c"]))).
  vm_compute. intros H. discriminate H.
Defined.

(** Pushing priorities 5, 1, 3 and popping three times gives 1, 3, 5. *)
Example pops_5_1_3 :
  map priority (drain 3 (run_qops [QPush 5 "a"; QPush 1 "b"; QPush 3 "c"]))
  = [1; 3; 5].
Proof. vm_compute. reflexivity. Qed.

(** Equal priorities pop in insertion order, whatever the payloads. *)
Example equal_priorities_fifo :
  map payload (drain 4 (run_qops [QPush 2 "zeta"; QPush 2 "alpha"; QPush 1 "x";
                                  QPush 2 "beta"]))
  = ["x"; "zeta"; "alpha"; "beta"].
Proof. vm_compute. reflexivity. Qed.

End TaskQueueFacts.

(* ------------------------------------------------------------------ *)
(** ** More of [shadow_bot_creator.py] *)

Module BotExtras.
Import ShadowBot BotFixtures.
Local Open Scope Z_scope.

Lemma py_lt_not_gt (x lo hi : Q) :
  (lo <= hi)%Q -> py_lt x lo = true -> py_gt x hi = false.
Proof.
  unfold py_lt, py_gt. intros Hle H.
  apply negb_true_iff in H. apply negb_false_iff.
  apply Qle_bool_iff. apply Qlt_le_weak.
  apply Qlt_le_trans with lo; [|exact Hle].
  apply Qnot_le_lt. intros H'. apply Qle_bool_iff in H'. congruence.
Qed.

Lemma random_choice_in (l : list string) k : l <> [] -> In (random_choice l k) l.
Proof.
  intros H. unfold random_choice. destruct l as [|x r]; [contradiction|].
  apply nth_In. apply Nat.mod_upper_bound. discriminate.
Qed.

Lemma running_bots_elem (m : ShadowBotManager) k :
  In k (list_running_bots m) <-> is_Some (bots m !! k).
Proof.
  unfold list_running_bots.
  rewrite <- list_elem_of_In, list_elem_of_fmap. split.
  - intros ([k' v] & -> & Hin). apply elem_of_map_to_list in Hin. eexists. exact Hin.
  - intros [v Hv]. exists (k, v). split; [reflexivity|]. apply elem_of_map_to_list, Hv.
Qed.

Lemma running_bots_length (m : ShadowBotManager) :
  length (list_running_bots m) = size (bots m).
Proof. unfold list_running_bots. rewrite length_fmap. apply length_map_to_list. Qed.

Section Runtime.

Variable docker_run : string -> string -> string -> Z -> option Container.
Variable docker_remove : Container -> bool.

(** The keys of the registry: listed once each, exactly the names it
    holds, as many as its size. *)
Theorem list_running_bots_spec m :
  List.NoDup (list_running_bots m) /\
  (forall k, In k (list_running_bots m) <-> is_Some (bots m !! k)) /\
  length (list_running_bots m) = size (bots m).
Proof.
  split; [|split].
  - apply NoDup_ListNoDup, NoDup_fst_map_to_list.
  - apply running_bots_elem.
  - apply running_bots_length.
Qed.

(** Stopping a registered bot whose removal succeeds deletes exactly its
    entry; its name can then be used again: a create under that name,
    from a registry that was within capacity, registers the new
    container. *)
Theorem stop_frees_name m n c r c' :
  bots m !! n = Some c -> docker_remove c = true -> n <> "" ->
  Z.of_nat (size (bots m)) <= max_bots m ->
  docker_run (image_name m) n (mem_limit m) (py_int_mul (cpu_limit m) 100000)
    = Some c' ->
  let m1 := fst (stop_shadow_bot docker_remove m n) in
  bots m1 !! n = None /\
  size (bots m1) = pred (size (bots m)) /\
  (forall k, k <> n -> bots m1 !! k = bots m !! k) /\
  create_shadow_bot docker_run m1 (Some n) r
    = (with_bots m1 (<[n := c']> (bots m1)), Returned (Some c')).
Proof.
  intros Hc Hrm Hn Hcap Hrun. unfold stop_shadow_bot. rewrite Hc, Hrm. cbn.
  assert (Hsz : size (delete n (bots m)) = pred (size (bots m)))
    by (rewrite map_size_delete, Hc; reflexivity).
  split; [apply lookup_delete_eq|]. split; [exact Hsz|]. split.
  - intros k Hk. apply lookup_delete_ne. congruence.
  - unfold create_shadow_bot. cbn. rewrite Hsz.
    assert (Hpos : (0 < size (bots m))%nat).
    { destruct (size (bots m)) eqn:E; [|lia].
      apply map_size_empty_iff in E. rewrite E, lookup_empty in Hc. discriminate. }
    destruct (Z.leb_spec (max_bots m) (Z.of_nat (pred (size (bots m))))); [lia|].
    unfold name_or. apply String.eqb_neq in Hn. rewrite Hn, Hrun. reflexivity.
Qed.

(** One call of [auto_scale_bots] adds at most one bot, removes at most
    one, and never removes the last one. *)
Theorem auto_scale_changes_by_at_most_one m cpu mem r k :
  let m' := fst (auto_scale_bots docker_run docker_remove m cpu mem r k) in
  (size (bots m') <= S (size (bots m)))%nat /\
  (size (bots m) <= S (size (bots m')))%nat /\
  ((1 <= size (bots m)) -> 1 <= size (bots m'))%nat.
Proof.
  unfold auto_scale_bots.
  destruct (py_gt cpu 80 || _).
  - unfold create_shadow_bot.
    destruct (Z.leb _ _); [cbn; lia|].
    destruct (docker_run _ _ _ _) as [c|]; cbn; [|lia].
    rewrite map_size_insert. destruct (bots m !! _); cbn; lia.
  - destruct (py_lt cpu 30 && py_lt mem 30 && Nat.ltb 1 (size (bots m))) eqn:E;
      [|cbn; lia].
    apply andb_true_iff in E as [_ E]. apply Nat.ltb_lt in E.
    unfold stop_shadow_bot.
    destruct (bots m !! _) as [c|] eqn:Hc; [|cbn; lia].
    destruct (docker_remove c); cbn; [|lia].
    rewrite map_size_delete, Hc. lia.
Qed.

(** Under low load (host CPU and memory below 30%) with at least two
    bots, and a runtime whose removals succeed, [auto_scale_bots] removes
    exactly one of the running bots. *)
Theorem auto_scale_low_load_removes_one m cpu mem r k :
  py_lt cpu 30 = true -> py_lt mem 30 = true -> (1 < size (bots m))%nat ->
  (forall c, docker_remove c = true) ->
  let m' := fst (auto_scale_bots docker_run docker_remove m cpu mem r k) in
  size (bots m') = pred (size (bots m)) /\ bots m' ⊆ bots m.
Proof.
  intros Hc Hm Hn Hrm. unfold auto_scale_bots.
  rewrite (py_lt_not_gt cpu 30 80) by (exact Hc || (unfold Qle; simpl; lia)).
  rewrite (py_lt_not_gt mem 30 80) by (exact Hm || (unfold Qle; simpl; lia)).
  rewrite Hc, Hm. cbn [orb andb]. apply Nat.ltb_lt in Hn. rewrite Hn.
  apply Nat.ltb_lt in Hn.
  set (n := random_choice (list_running_bots m) k).
  assert (Hin : is_Some (bots m !! n)).
  { apply running_bots_elem. apply random_choice_in.
    intros E. pose proof (running_bots_length m) as L.
    rewrite E in L. cbn in L. lia. }
  destruct Hin as [c Hc'].
  unfold stop_shadow_bot. rewrite Hc', Hrm. cbn. split.
  - rewrite map_size_delete, Hc'. reflexivity.
  - apply delete_subseteq.
Qed.

End Runtime.

Lemma stop_frees_name_witness :
  let m := fst (create_shadow_bot stub_run manager0 (Some "b") 0) in
  let m1 := fst (stop_shadow_bot stub_remove m "b") in
  bots m1 !! "b" = None /\
  size (bots m1) = pred (size (bots m)) /\
  (forall k, k <> "b" -> bots m1 !! k = bots m !! k) /\
  create_shadow_bot stub_run m1 (Some "b") 7
    = (with_bots m1 (<[ "b" := mkContainer "shadow_bot_image" "b" "256m" 50000 ]> (bots m1)),
       Returned (Some (mkContainer "shadow_bot_image" "b" "256m" 50000))).
Proof.
  apply (stop_frees_name stub_run stub_remove
           (fst (create_shadow_bot stub_run manager0 (Some "b") 0)) "b"
           (mkContainer "shadow_bot_image" "b" "256m" 50000) 7
           (mkContainer "shadow_bot_image" "b" "256m" 50000)).
  - vm_compute. reflexivity.
  - reflexivity.
  - intros H. discriminate H.
  - vm_compute. intros H. discriminate H.
  - vm_compute. reflexivity.
Defined.

Lemma auto_scale_low_load_removes_one_witness :
  let m := run_ops stub_run stub_remove manager0 [OpCreate (Some "a") 0; OpCreate (Some "b") 0] in
  let m' := fst (auto_scale_bots stub_run stub_remove m 10 10 1234 1) in
  size (bots m') = pred (size (bots m)) /\ bots m' ⊆ bots m.
Proof.
  apply (auto_scale_low_load_removes_one stub_run stub_remove).
  - vm_compute. reflexivity.
  - vm_compute. reflexivity.
  - vm_compute. lia.
  - intros c. reflexivity.
Defined.

End BotExtras.

(* ------------------------------------------------------------------ *)
(** ** More of [task_manager.py] *)

Module MonitorExtras.
Import TaskMgr Observe TaskMgrFacts Fixtures.
Local Open Scope Z_scope.

(** *** Events and webhook posts *)

Lemma lp_bind {A B} (m : M A) (k : A -> M B) :
  logs_posts m -> (forall a, logs_posts (k a)) -> logs_posts (m ≫= k).
Proof.
  intros Hm Hk s. unfold st_of, tr_of. rewrite run_bind.
  destruct (Hm s) as (U1 & l1 & E1 & P1). unfold st_of, tr_of in U1, E1, P1.
  destruct (m s) as [[s1 t1] [a|e]]; cbn in *.
  - destruct (Hk a s1) as (U2 & l2 & E2 & P2). unfold st_of, tr_of in U2, E2, P2.
    destruct (k a s1) as [[s2 t2] r]; cbn in *.
    split; [congruence|]. exists (app l1 l2). split.
    + rewrite E2, E1, app_assoc. reflexivity.
    + unfold posts_of in *. rewrite omap_app, P1, P2, U1.
      destruct (configured _); reflexivity.
  - split; [exact U1|]. exists l1. split; assumption.
Qed.

Lemma lp_nil {A} (m : M A) :
  (forall s, fst (fst (m s)) = s /\ posts_of (snd (fst (m s))) = []) -> logs_posts m.
Proof.
  intros H s. unfold st_of, tr_of. destruct (H s) as [E P]. rewrite E, P.
  split; [reflexivity|]. exists []. rewrite app_nil_r.
  split; [reflexivity | destruct (configured _); reflexivity].
Qed.

Lemma lp_ret {A} (a : A) : logs_posts (mret a).
Proof. apply lp_nil. intros s. split; reflexivity. Qed.
Lemma lp_get : logs_posts get_st.
Proof. apply lp_nil. intros s. split; reflexivity. Qed.
Lemma lp_raise {A} e : logs_posts (raise (A:=A) e).
Proof. apply lp_nil. intros s. split; reflexivity. Qed.
Lemma lp_emit e : posts_of [e] = [] -> logs_posts (emit e).
Proof. intros H. apply lp_nil. intros s. split; [reflexivity | exact H]. Qed.

Lemma lp_modify f :
  (forall s, webhook_url (f s) = webhook_url s /\ events (f s) = events s) ->
  logs_posts (modify f).
Proof.
  intros H s. unfold st_of, tr_of. cbn. destruct (H s) as [U E].
  split; [exact U|]. exists []. rewrite app_nil_r.
  split; [exact E | destruct (configured _); reflexivity].
Qed.

Lemma lp_scale_up env img : logs_posts (scale_up env img).
Proof.
  intros s. unfold st_of, tr_of. rewrite scale_up_run.
  split; [destruct (Z.ltb _ _); [destruct (containers s !! _)|]; reflexivity|].
  exists []. rewrite app_nil_r.
  destruct (Z.ltb _ _); [destruct (containers s !! _)|]; cbn;
    (split; [reflexivity | destruct (configured _); reflexivity]).
Qed.

(** An alert posts its message once when a URL is configured, and
    nothing otherwise. *)
Lemma send_posts env m s :
  exists t, send_webhook_alert env m s = (s, t, Ok tt) /\
    posts_of t = if configured (webhook_url s) then [m] else [].
Proof.
  unfold send_webhook_alert, requests_post, try_except.
  cbv [mbind M_bind get_st emit raise mret M_ret].
  destruct (webhook_url s) as [u|]; cbn [configured]; [|eexists; split; reflexivity].
  destruct (String.eqb u ""); cbn [negb]; [eexists; split; reflexivity|].
  destruct (env_post env u m); cbn; eexists; split; reflexivity.
Qed.

(** The pattern of [_monitor_container]: alert, then log the same
    message. *)
Lemma alert_then_log {B} env m (k : M B) :
  logs_posts k -> logs_posts (send_webhook_alert env m ;; (log_event m ;; k)).
Proof.
  intros Hk s. destruct (send_posts env m s) as (t & E & P).
  destruct (Hk (with_events s (app (events s) [m]))) as (U & l & E2 & P2).
  unfold st_of, tr_of in *. rewrite run_bind, E.
  cbv [mbind M_bind log_event modify].
  destruct (k _) as [[s2 t2] r]. cbn in *.
  split; [exact U|]. exists (m :: l). split.
  - rewrite E2, <- app_assoc. reflexivity.
  - unfold posts_of in *. rewrite omap_app, P, P2. cbn.
    destruct (configured _); reflexivity.
Qed.

Ltac lp_step :=
  match goal with
  | |- logs_posts (send_webhook_alert _ _ ≫= _) => apply alert_then_log
  | |- logs_posts (scale_up _ _) => apply lp_scale_up
  | |- logs_posts (_ ≫= _) => apply lp_bind; [|intros ?]
  | |- logs_posts (mret _) => apply lp_ret
  | |- logs_posts get_st => apply lp_get
  | |- logs_posts (emit _) => apply lp_emit; reflexivity
  | |- logs_posts (raise _) => apply lp_raise
  | |- logs_posts (modify _) => apply lp_modify; intros; split; reflexivity
  | |- logs_posts (let _ := _ in _) => cbv zeta
  | |- logs_posts (if ?b then _ else _) => destruct b
  | |- logs_posts (match ?x with _ => _ end) => destruct x
  end.

Lemma act_logs_posts env b c lim a1 a2 a3 a4 : logs_posts (act env b c lim a1 a2 a3 a4).
Proof. unfold act, py_div, first_tag. repeat lp_step. Qed.

Lemma tick_logs_posts env b c rd : logs_posts (monitor_tick env b c rd).
Proof. unfold monitor_tick. repeat first [apply act_logs_posts | lp_step]. Qed.

Lemma loop_logs_posts env b c rds : logs_posts (monitor_loop env b c rds).
Proof.
  induction rds as [|rd rds IH]; cbn [monitor_loop]; [apply lp_ret|].
  apply lp_bind; [apply tick_logs_posts | intros _; exact IH].
Qed.

Lemma loop_grows env b c rds : stays grows_below_max (monitor_loop env b c rds).
Proof.
  induction rds as [|rd rds IH]; cbn [monitor_loop]; [apply (stays_ret grows_below_max)|].
  apply (stays_bind grows_below_max); [apply tick_grows | intros _; exact IH].
Qed.

(** *** The memory limit 0 *)

Lemma act_zero_limit env b c lim a1 a2 a3 a4 s :
  (lim == 0)%Q -> act env b c lim a1 a2 a3 a4 s = (s, [], Exc "ZeroDivisionError").
Proof. intros H. unfold act, py_div. rewrite (proj2 (Qeq_bool_iff lim 0) H). reflexivity. Qed.

Lemma tick_zero_limit env b c rd s :
  (limit (rd_stats rd) == 0)%Q ->
  monitor_tick env b c rd s
  = (with_history s (push_history (load_history s) (sample_of rd)),
     gauge_effects (push_history (load_history s) (sample_of rd)),
     Exc "ZeroDivisionError").
Proof.
  intros H. rewrite tick_unfold. cbv zeta. rewrite act_zero_limit by exact H.
  reflexivity.
Qed.

Lemma loop_stops env b c rds1 rd0 rds2 s :
  (limit (rd_stats rd0) == 0)%Q ->
  monitor_loop env b c (app rds1 (rd0 :: rds2)) s = monitor_loop env b c (app rds1 [rd0]) s
  /\ exists e, snd (monitor_loop env b c (app rds1 (rd0 :: rds2)) s) = Exc e.
Proof.
  intros H. revert s. induction rds1 as [|rd rds1 IH]; intros s.
  - cbn [app monitor_loop]. rewrite !run_bind, tick_zero_limit by exact H.
    split; [reflexivity|]. eexists. reflexivity.
  - cbn [app monitor_loop]. rewrite !run_bind.
    destruct (monitor_tick env b c rd s) as [[s1 t1] [u|e]].
    + destruct (IH s1) as [E [e He]]. rewrite E. split; [reflexivity|].
      rewrite E in He. clear E IH.
      destruct (monitor_loop env b c (app rds1 [rd0]) s1) as [[s2 t2] r].
      cbn in *. exists e. exact He.
    + split; [reflexivity|]. exists e. reflexivity.
Qed.

(** *** Smoothing *)

(** *** Properties *)

(** A tick whose memory limit reads 0 raises [ZeroDivisionError] at the
    first check: its sample is in the history and the four gauges are
    set, but it sends no alert, logs no event and performs no action. *)
Theorem zero_limit_tick_raises env b c rd s :
  (limit (rd_stats rd) == 0)%Q ->
  let h := push_history (load_history s) (sample_of rd) in
  monitor_tick env b c rd s = (with_history s h, gauge_effects h, Exc "ZeroDivisionError").
Proof.
  intros H. cbv zeta. rewrite tick_unfold. cbv zeta.
  rewrite act_zero_limit by exact H. reflexivity.
Qed.

Lemma zero_limit_tick_raises_witness :
  monitor_tick env0 "shadow_bot_1" bot_a (reading 1000 10 0 10 10) tm0
  = (with_history tm0 [sample_of (reading 1000 10 0 10 10)],
     gauge_effects [sample_of (reading 1000 10 0 10 10)], Exc "ZeroDivisionError").
Proof.
  apply (zero_limit_tick_raises env0 "shadow_bot_1" bot_a (reading 1000 10 0 10 10) tm0).
  reflexivity.
Defined.

(** When the scale-out check fires for a container whose image has no
    tag, [container.image.tags[0]] raises [IndexError] after the alert
    and the event: the scale-out message is the last event logged, and
    no container is started. *)
Theorem untagged_scale_out_raises env b c lim a1 a2 a3 a4 s :
  ~ (lim == 0)%Q -> tc_image_tags c = [] ->
  py_gt a1 60000 || py_gt (a2 / lim) (85#100) = true ->
  res_of (act env b c lim a1 a2 a3 a4) s = Exc "IndexError" /\
  containers (st_of (act env b c lim a1 a2 a3 a4) s) = containers s /\
  ~ In ScaleOut (actions_of (tr_of (act env b c lim a1 a2 a3 a4) s)) /\
  exists pre, events (st_of (act env b c lim a1 a2 a3 a4) s)
              = app pre ["Skalowanie systemu: dodawanie nowego kontenera."].
Proof.
  intros Hlim Htag H4.
  unfold st_of, tr_of, res_of. start_act Hlim.
  cbn -[py_gt Qdiv] in H4.
  run_act.
  all: try discriminate.
  all: try congruence.
  all: split; [reflexivity|]; split; [reflexivity|]; split; [|eexists; reflexivity].
  all: unfold actions_of in *; rewrite ?omap_app.
  all: repeat match goal with H : omap action_of ?t = [] |- _ => rewrite H; clear H end.
  all: cbn; intuition discriminate.
Qed.

Lemma untagged_scale_out_raises_witness :
  let c := mkTContainer [] 50000 in
  res_of (act env0 "shadow_bot_1" c 1000 70000 0 0 0) tm0 = Exc "IndexError" /\
  containers (st_of (act env0 "shadow_bot_1" c 1000 70000 0 0 0) tm0) = containers tm0 /\
  ~ In ScaleOut (actions_of (tr_of (act env0 "shadow_bot_1" c 1000 70000 0 0 0) tm0)) /\
  exists pre, events (st_of (act env0 "shadow_bot_1" c 1000 70000 0 0 0) tm0)
              = app pre ["Skalowanie systemu: dodawanie nowego kontenera."].
Proof.
  apply (untagged_scale_out_raises env0 "shadow_bot_1" (mkTContainer [] 50000)
           1000 70000 0 0 0 tm0).
  - vm_compute. intros H. discriminate H.
  - reflexivity.
  - vm_compute. reflexivity.
Defined.

(** The monitor of a registered container ends at the first reading
    with memory limit 0: it raises, and the readings after it are never
    processed (the run is the one that stops at that reading). *)
Theorem monitor_stops_at_zero_limit env b rds1 rd0 rds2 s :
  is_Some (containers s !! b) -> (limit (rd_stats rd0) == 0)%Q ->
  monitor_container env b (app rds1 (rd0 :: rds2)) s
    = monitor_container env b (app rds1 [rd0]) s /\
  exists e, res_of (monitor_container env b (app rds1 (rd0 :: rds2))) s = Exc e.
Proof.
  intros [c Hc] H. unfold monitor_container, res_of. rewrite !run_bind. cbn [get_st].
  rewrite Hc. destruct (loop_stops env b c rds1 rd0 rds2 s H) as [E [e He]].
  rewrite E. split; [reflexivity|]. rewrite E in He. clear E.
  destruct (monitor_loop env b c (app rds1 [rd0]) s) as [[s2 t2] r].
  cbn in *. exists e. exact He.
Qed.

Lemma monitor_stops_at_zero_limit_witness :
  monitor_container env0 "shadow_bot_1"
    [reading 1000 10 100 10 10; reading 1000 10 0 10 10; reading 1000 10 100 10 10] tm2
  = monitor_container env0 "shadow_bot_1"
      [reading 1000 10 100 10 10; reading 1000 10 0 10 10] tm2 /\
  exists e, res_of (monitor_container env0 "shadow_bot_1"
    [reading 1000 10 100 10 10; reading 1000 10 0 10 10; reading 1000 10 100 10 10]) tm2
    = Exc e.
Proof.
  apply (monitor_stops_at_zero_limit env0 "shadow_bot_1" [reading 1000 10 100 10 10]
           (reading 1000 10 0 10 10) [reading 1000 10 100 10 10] tm2).
  - vm_compute. eexists. reflexivity.
  - reflexivity.
Defined.

(** A monitor never removes or replaces a registry entry, and never
    changes [max_containers] or the webhook URL. *)
Theorem monitor_keeps_registry_and_config env b rds s :
  let s' := st_of (monitor_container env b rds) s in
  containers s ⊆ containers s' /\ max_containers s' = max_containers s /\
  webhook_url s' = webhook_url s.
Proof.
  assert (H : stays grows_below_max (monitor_container env b rds)).
  { unfold monitor_container. apply (stays_bind grows_below_max); [apply (stays_get grows_below_max)|].
    intros s0. destruct (containers s0 !! b); [apply loop_grows | apply (stays_ret grows_below_max)]. }
  assert (U : logs_posts (monitor_container env b rds)).
  { unfold monitor_container. apply lp_bind; [apply lp_get|].
    intros s0. destruct (containers s0 !! b); [apply loop_logs_posts | apply lp_ret]. }
  destruct (H s) as (M & S & _). destruct (U s) as [W _].
  split; [exact S|]. split; assumption.
Qed.

(** A tick appends at most four events (one per check) to the log, and
    never rewrites it, whether or not it raises. *)
Theorem tick_appends_at_most_four_events env b c rd s :
  exists l, events (st_of (monitor_tick env b c rd) s) = app (events s) l /\
    (length l <= 4)%nat.
Proof.
  destruct (Qeq_dec (limit (rd_stats rd)) 0) as [Z0|NZ].
  - exists []. unfold st_of. rewrite tick_zero_limit by exact Z0.
    rewrite app_nil_r. split; [reflexivity | cbn; lia].
  - destruct (tick_parts env b c rd s) as (E & _ & _). cbv zeta in E.
    rewrite E, act_events by exact NZ.
    eexists. split; [reflexivity|].
    unfold spec_policy_messages.
    repeat match goal with |- context [if ?x then _ else _] => destruct x end;
      cbn; lia.
Qed.

End MonitorExtras.
